(** * get_current_time.py: a shallow embedding and its properties

    The script reads the local clock once, derives seven formatted fields
    from that reading, and prints one of them, all of them as JSON, a block
    of search tips, or a usage text, depending on its first argument.

    Python [str] values are modelled by [string], read as the UTF-8
    encoding of the text; Python [int] values by [Z]; the insertion-ordered
    [dict] of the script by an association list. *)

From Stdlib Require Import ZArith NArith List String Ascii Bool Lia.
From Stdlib Require Import DecimalString DecimalPos.
Import ListNotations.
Local Open Scope string_scope.
Local Open Scope Z_scope.

(** ** Characters and strings *)

Definition nl : string := String "010"%char EmptyString.
Definition dq : string := String "034"%char EmptyString.
Definition bs : string := String "092"%char EmptyString.

(** [s * n] on a [str]. *)
Fixpoint str_repeat (s : string) (n : nat) : string :=
  match n with
  | O => EmptyString
  | S n' => s ++ str_repeat s n'
  end.

(** [sep.join(parts)]. *)
Fixpoint str_join (sep : string) (parts : list string) : string :=
  match parts with
  | [] => EmptyString
  | [p] => p
  | p :: ps => p ++ sep ++ str_join sep ps
  end.

(** [x in [a, b, ...]] for strings. *)
Definition str_in (x : string) (l : list string) : bool :=
  existsb (String.eqb x) l.

Definition is_ascii_char (c : ascii) : bool := (N_of_ascii c <? 128)%N.

Definition is_ascii (s : string) : bool :=
  forallb is_ascii_char (list_ascii_of_string s).

Definition ascii_lower_char (c : ascii) : ascii :=
  let n := N_of_ascii c in
  if ((65 <=? n) && (n <=? 90))%N then ascii_of_N (n + 32) else c.

Fixpoint ascii_lower (s : string) : string :=
  match s with
  | EmptyString => EmptyString
  | String c rest => String (ascii_lower_char c) (ascii_lower rest)
  end.

(** [s.lower()].  On an ASCII-only [str] CPython lowers byte by byte, A-Z
    to a-z.  Any other [str] goes through the Unicode case mapping, whose
    tables are not part of the program: it is the parameter
    [unicode_lower]. *)
Definition lower (unicode_lower : string -> string) (s : string) : string :=
  if is_ascii s then ascii_lower s else unicode_lower s.

(** [str(n)] for an [int]. *)
Definition str_of_int (n : Z) : string := NilZero.string_of_int (Z.to_int n).

(** [s.rjust(w, "0")], the padding of the numeric [strftime] fields. *)
Definition zero_pad (w : nat) (s : string) : string :=
  str_repeat "0" (w - String.length s) ++ s.

(** ** The clock reading *)

Record datetime : Type := mk_datetime
  { year : Z; month : Z; day : Z; hour : Z; minute : Z; second : Z }.

Definition is_leap (y : Z) : bool :=
  ((y mod 4 =? 0) && negb (y mod 100 =? 0)) || (y mod 400 =? 0).

Definition days_in_month (y m : Z) : Z :=
  if m =? 2 then (if is_leap y then 29 else 28)
  else if (m =? 4) || (m =? 6) || (m =? 9) || (m =? 11) then 30
  else 31.

(** The ranges [datetime] enforces on every instance. *)
Definition valid_datetime (t : datetime) : bool :=
  (1 <=? year t) && (year t <=? 9999) &&
  (1 <=? month t) && (month t <=? 12) &&
  (1 <=? day t) && (day t <=? days_in_month (year t) (month t)) &&
  (0 <=? hour t) && (hour t <=? 23) &&
  (0 <=? minute t) && (minute t <=? 59) &&
  (0 <=? second t) && (second t <=? 59).

(** Month names of the C locale: the script never calls [setlocale], so
    [LC_TIME] stays at its start-up value. *)
Definition month_names : list string :=
  [ "January"; "February"; "March"; "April"; "May"; "June"; "July";
    "August"; "September"; "October"; "November"; "December" ].

Definition month_name (m : Z) : string :=
  nth (Z.to_nat (m - 1)) month_names EmptyString.

(** One [strftime] directive of those the script uses, and [%%].  [%Y]
    is the year with century as a decimal number of four digits, the
    other numeric fields have two digits. *)
Definition directive (c : ascii) (t : datetime) : string :=
  if Ascii.eqb c "Y" then zero_pad 4 (str_of_int (year t))
  else if Ascii.eqb c "y" then zero_pad 2 (str_of_int (year t mod 100))
  else if Ascii.eqb c "B" then month_name (month t)
  else if Ascii.eqb c "m" then zero_pad 2 (str_of_int (month t))
  else if Ascii.eqb c "d" then zero_pad 2 (str_of_int (day t))
  else if Ascii.eqb c "H" then zero_pad 2 (str_of_int (hour t))
  else if Ascii.eqb c "M" then zero_pad 2 (str_of_int (minute t))
  else if Ascii.eqb c "S" then zero_pad 2 (str_of_int (second t))
  else if Ascii.eqb c "%" then "%"
  else String "%" (String c EmptyString).

Fixpoint strftime_from (fmt : string) (t : datetime) : string :=
  match fmt with
  | EmptyString => EmptyString
  | String c rest =>
      if Ascii.eqb c "%" then
        match rest with
        | String d rest' => directive d t ++ strftime_from rest' t
        | EmptyString => String c EmptyString
        end
      else String c (strftime_from rest t)
  end.

(** [t.strftime(fmt)]. *)
Definition strftime (t : datetime) (fmt : string) : string :=
  strftime_from fmt t.

(** ** Dictionaries of strings *)

Definition dict : Type := list (string * string).

Fixpoint dict_get (d : dict) (k : string) : option string :=
  match d with
  | [] => None
  | (k', v) :: d' => if String.eqb k' k then Some v else dict_get d' k
  end.

(** [d[k] = v]: an existing key keeps its position. *)
Fixpoint dict_set (d : dict) (k v : string) : dict :=
  match d with
  | [] => [(k, v)]
  | (k', v') :: d' =>
      if String.eqb k' k then (k', v) :: d' else (k', v') :: dict_set d' k v
  end.

Definition dict_keys (d : dict) : list string := map fst d.

(** ** The interpreter state and the monad of script actions *)

(** [clock] is the sequence of readings successive calls of
    [datetime.now()] return, [reads] how many were taken, [stdout] the
    texts written so far, oldest first. *)
Record World : Type := mk_world
  { clock : nat -> datetime; reads : nat; stdout : list string }.

Inductive exn : Type :=
| KeyError (key : string)
| SystemExit (code : Z).

Inductive result (A : Type) : Type :=
| Return (a : A)
| Raise (e : exn).
Arguments Return {A} a.
Arguments Raise {A} e.

Definition Py (A : Type) : Type := World -> result A * World.

Definition ret {A} (a : A) : Py A := fun w => (Return a, w).

Definition bind {A B} (m : Py A) (k : A -> Py B) : Py B :=
  fun w =>
    match m w with
    | (Return a, w') => k a w'
    | (Raise e, w') => (Raise e, w')
    end.

Declare Scope py_scope.
Delimit Scope py_scope with py.
Notation "x <- m ;; k" := (bind m (fun x => k))
  (at level 61, m at next level, right associativity) : py_scope.
Notation "m ;; k" := (bind m (fun _ => k))
  (at level 61, right associativity) : py_scope.
Local Open Scope py_scope.

(** [datetime.now()]. *)
Definition datetime_now : Py datetime :=
  fun w => (Return (clock w (reads w)),
            mk_world (clock w) (S (reads w)) (stdout w)).

(** [print(s)]: the text and a newline go to standard output, which is
    taken to accept every text (UTF-8) and never to fail. *)
Definition print (s : string) : Py unit :=
  fun w => (Return tt, mk_world (clock w) (reads w) (stdout w ++ [s ++ nl])).

(** [d[k]] as an expression. *)
Definition getitem (d : dict) (k : string) : Py string :=
  fun w =>
    match dict_get d k with
    | Some v => (Return v, w)
    | None => (Raise (KeyError k), w)
    end.

(** [sys.exit(code)]. *)
Definition sys_exit {A} (code : Z) : Py A := fun w => (Raise (SystemExit code), w).

(** ** get_time_info *)

(** The dict literal [get_time_info] returns, over the local [now]. *)
Definition time_info_of (now : datetime) : dict :=
  [ ("year", strftime now "%Y");
    ("year_short", strftime now "%y");
    ("month_year", strftime now "%B %Y");
    ("quarter", "Q" ++ str_of_int ((month now - 1) / 3 + 1) ++ " "
                    ++ str_of_int (year now));
    ("date_iso", strftime now "%Y-%m-%d");
    ("search_suffix", strftime now "%Y");
    ("full_datetime", strftime now "%Y-%m-%d %H:%M:%S") ].

Definition get_time_info : Py dict :=
  now <- datetime_now ;;
  ret (time_info_of now).

(** ** print_search_tips *)

Definition print_search_tips (time_info : dict) : Py unit :=
  print (str_repeat "=" 60) ;;
  print "TIME-AWARE SEARCH TIPS" ;;
  print (str_repeat "=" 60) ;;
  y <- getitem time_info "year" ;;
  print (nl ++ "Current Year: " ++ y) ;;
  q <- getitem time_info "quarter" ;;
  print ("Current Quarter: " ++ q) ;;
  d <- getitem time_info "date_iso" ;;
  print ("Current Date: " ++ d) ;;
  print EmptyString ;;
  print "SEARCH QUERY EXAMPLES:" ;;
  print (str_repeat "-" 40) ;;
  y <- getitem time_info "year" ;;
  print ("  " ++ dq ++ "FastAPI JWT authentication " ++ y ++ dq) ;;
  y <- getitem time_info "year" ;;
  print ("  " ++ dq ++ "React useEffect best practices " ++ y ++ dq) ;;
  y <- getitem time_info "year" ;;
  print ("  " ++ dq ++ "Python security vulnerabilities " ++ y ++ dq) ;;
  y <- getitem time_info "year" ;;
  print ("  " ++ dq ++ "Next.js 14 breaking changes " ++ y ++ dq) ;;
  print EmptyString ;;
  print "WHY ADD THE YEAR?" ;;
  print (str_repeat "-" 40) ;;
  print "  • Libraries and frameworks update frequently" ;;
  print "  • Best practices evolve over time" ;;
  print "  • Security recommendations change" ;;
  print "  • Adding the year filters out outdated content" ;;
  print "  • Results prioritize recent tutorials and docs" ;;
  print EmptyString ;;
  print "SEARCH SUFFIXES TO TRY:" ;;
  print (str_repeat "-" 40) ;;
  y <- getitem time_info "year" ;;
  print ("  " ++ dq ++ "[topic] " ++ y ++ dq ++ "          - General current info") ;;
  y <- getitem time_info "year" ;;
  print ("  " ++ dq ++ "[topic] latest " ++ y ++ dq ++ "   - Emphasize recency") ;;
  y <- getitem time_info "year" ;;
  print ("  " ++ dq ++ "[topic] best practices " ++ y ++ dq ++ " - Current standards") ;;
  y <- getitem time_info "year" ;;
  print ("  " ++ dq ++ "[topic] changelog " ++ y ++ dq ++ " - Recent changes") ;;
  print EmptyString.

(** ** json.dumps and json.loads on dictionaries of strings *)

Definition hex_digit (n : N) : ascii :=
  nth (N.to_nat n) (list_ascii_of_string "0123456789abcdef") "0"%char.

(** ['{0:04x}'.format(n)] for [n < 0x10000]. *)
Definition hex4 (n : N) : string :=
  String (hex_digit (n / 4096 mod 16)%N)
  (String (hex_digit (n / 256 mod 16)%N)
  (String (hex_digit (n / 16 mod 16)%N)
  (String (hex_digit (n mod 16)%N) EmptyString))).

(** The characters [ESCAPE_ASCII] matches: backslash, double quote and
    everything outside the range from space to tilde. *)
Definition needs_escape (n : N) : bool :=
  ((n =? 92) || (n =? 34) || (n <? 32) || (126 <? n))%N.

(** The replacement of one matched code point: [ESCAPE_DCT] first, then
    [\uXXXX], with a surrogate pair above the basic plane. *)
Definition escape_codepoint (n : N) : string :=
  if (n =? 92)%N then bs ++ bs
  else if (n =? 34)%N then bs ++ dq
  else if (n =? 8)%N then bs ++ "b"
  else if (n =? 12)%N then bs ++ "f"
  else if (n =? 10)%N then bs ++ "n"
  else if (n =? 13)%N then bs ++ "r"
  else if (n =? 9)%N then bs ++ "t"
  else if (n <? 65536)%N then bs ++ "u" ++ hex4 n
  else
    let m := (n - 65536)%N in
    bs ++ "u" ++ hex4 (55296 + (m / 1024) mod 1024)%N ++
    bs ++ "u" ++ hex4 (56320 + m mod 1024)%N.

(** The body of [py_encode_basestring_ascii], walking the UTF-8 bytes of
    the [str]; [pending] holds the code point being assembled and the
    number of continuation bytes it still expects. *)
Fixpoint escape_from (pending : option (N * nat)) (s : string) : string :=
  match s with
  | EmptyString => EmptyString
  | String c rest =>
      let b := N_of_ascii c in
      if (b <? 128)%N then
        (if needs_escape b then escape_codepoint b else String c EmptyString)
        ++ escape_from None rest
      else if (b <? 192)%N then
        match pending with
        | Some (acc, S k) =>
            let acc' := (acc * 64 + b mod 64)%N in
            match k with
            | O => escape_codepoint acc' ++ escape_from None rest
            | S _ => escape_from (Some (acc', k)) rest
            end
        | _ => escape_from None rest
        end
      else if (b <? 224)%N then escape_from (Some ((b mod 32)%N, 1%nat)) rest
      else if (b <? 240)%N then escape_from (Some ((b mod 16)%N, 2%nat)) rest
      else escape_from (Some ((b mod 8)%N, 3%nat)) rest
  end.

Definition py_encode_basestring_ascii (s : string) : string :=
  dq ++ escape_from None s ++ dq.

(** One [key: value] member, with the key separator [": "]. *)
Definition json_item (kv : string * string) : string :=
  py_encode_basestring_ascii (fst kv) ++ ": " ++ py_encode_basestring_ascii (snd kv).

(** [json.dumps(d, indent=2)] for a dict from [str] to [str]: members in
    insertion order, each on a line of its own behind two spaces, the item
    separator a comma, the braces on lines of their own. *)
Definition json_dumps_indent2 (d : dict) : string :=
  match d with
  | [] => "{}"
  | _ => "{" ++ nl ++ "  "
         ++ str_join ("," ++ nl ++ "  ") (map json_item d)
         ++ nl ++ "}"
  end.

Definition is_json_ws (c : ascii) : bool :=
  Ascii.eqb c " " || Ascii.eqb c "009" || Ascii.eqb c "010" || Ascii.eqb c "013".

Fixpoint skip_ws (s : string) : string :=
  match s with
  | String c rest => if is_json_ws c then skip_ws rest else s
  | EmptyString => EmptyString
  end.

Definition hex_value (c : ascii) : option N :=
  let n := N_of_ascii c in
  if ((48 <=? n) && (n <=? 57))%N then Some (n - 48)%N
  else if ((97 <=? n) && (n <=? 102))%N then Some (n - 87)%N
  else if ((65 <=? n) && (n <=? 70))%N then Some (n - 55)%N
  else None.

Definition hex4_value (a b c d : ascii) : option N :=
  match hex_value a, hex_value b, hex_value c, hex_value d with
  | Some x, Some y, Some z, Some t => Some (((x * 16 + y) * 16 + z) * 16 + t)%N
  | _, _, _, _ => None
  end.

(** The UTF-8 bytes of a code point. *)
Definition utf8_encode (n : N) : string :=
  let byte (k : N) := String (ascii_of_N k) EmptyString in
  if (n <? 128)%N then byte n
  else if (n <? 2048)%N then byte (192 + n / 64)%N ++ byte (128 + n mod 64)%N
  else if (n <? 65536)%N then
    byte (224 + n / 4096)%N ++ byte (128 + (n / 64) mod 64)%N
    ++ byte (128 + n mod 64)%N
  else
    byte (240 + n / 262144)%N ++ byte (128 + (n / 4096) mod 64)%N
    ++ byte (128 + (n / 64) mod 64)%N ++ byte (128 + n mod 64)%N.

(** The single-character escapes of the [BACKSLASH] table. *)
Definition simple_escape (e : ascii) : option ascii :=
  if Ascii.eqb e "034" then Some "034"%char
  else if Ascii.eqb e "092" then Some "092"%char
  else if Ascii.eqb e "/" then Some "/"%char
  else if Ascii.eqb e "b" then Some "008"%char
  else if Ascii.eqb e "f" then Some "012"%char
  else if Ascii.eqb e "n" then Some "010"%char
  else if Ascii.eqb e "r" then Some "013"%char
  else if Ascii.eqb e "t" then Some "009"%char
  else None.

Definition is_high_surrogate (u : N) : bool := ((55296 <=? u) && (u <=? 56319))%N.
Definition is_low_surrogate (u : N) : bool := ((56320 <=? u) && (u <=? 57343))%N.

Definition flush (hi : option N) : string :=
  match hi with
  | Some h => utf8_encode h
  | None => EmptyString
  end.

Definition prepend (p : string) (r : option (string * string))
  : option (string * string) :=
  match r with
  | Some (s, rest) => Some (p ++ s, rest)
  | None => None
  end.

(** The strict string scanner of the decoder, started behind the opening
    quote: the decoded text and what follows the closing quote.  [hi] is
    a high surrogate read from an escape and not yet paired. *)
Fixpoint scan_string (hi : option N) (s : string) : option (string * string) :=
  match s with
  | EmptyString => None
  | String c rest =>
      if Ascii.eqb c "034" then Some (flush hi, rest)
      else if Ascii.eqb c "092" then
        match rest with
        | EmptyString => None
        | String e rest1 =>
            if Ascii.eqb e "u" then
              match rest1 with
              | String h1 (String h2 (String h3 (String h4 rest2))) =>
                  match hex4_value h1 h2 h3 h4 with
                  | None => None
                  | Some u =>
                      match hi with
                      | Some h =>
                          if is_low_surrogate u then
                            prepend
                              (utf8_encode (65536 + (h - 55296) * 1024 + (u - 56320))%N)
                              (scan_string None rest2)
                          else if is_high_surrogate u then
                            prepend (utf8_encode h) (scan_string (Some u) rest2)
                          else
                            prepend (utf8_encode h ++ utf8_encode u)
                                    (scan_string None rest2)
                      | None =>
                          if is_high_surrogate u then scan_string (Some u) rest2
                          else prepend (utf8_encode u) (scan_string None rest2)
                      end
                  end
              | _ => None
              end
            else
              match simple_escape e with
              | Some ch =>
                  prepend (flush hi ++ String ch EmptyString) (scan_string None rest1)
              | None => None
              end
        end
      else if (N_of_ascii c <? 32)%N then None
      else prepend (flush hi ++ String c EmptyString) (scan_string None rest)
  end.

(** The members of an object, from the opening quote of a key up to and
    including the closing brace; each round consumes one member. *)
Fixpoint parse_members (fuel : nat) (s : string) (acc : dict)
  : option (dict * string) :=
  match fuel with
  | O => None
  | S fuel' =>
      match s with
      | EmptyString => None
      | String c r0 =>
          if negb (Ascii.eqb c "034") then None else
          match scan_string None r0 with
          | None => None
          | Some (k, r1) =>
              match skip_ws r1 with
              | EmptyString => None
              | String c1 r2 =>
                  if negb (Ascii.eqb c1 ":") then None else
                  match skip_ws r2 with
                  | EmptyString => None
                  | String c2 r3 =>
                      if negb (Ascii.eqb c2 "034") then None else
                      match scan_string None r3 with
                      | None => None
                      | Some (v, r4) =>
                          let acc' := dict_set acc k v in
                          match skip_ws r4 with
                          | EmptyString => None
                          | String c3 r5 =>
                              if Ascii.eqb c3 "," then
                                parse_members fuel' (skip_ws r5) acc'
                              else if Ascii.eqb c3 "}" then Some (acc', r5)
                              else None
                          end
                      end
                  end
              end
          end
      end
  end.

(** [json.loads(s)] where the text is an object whose members are all
    strings; [None] on any other text. *)
Definition json_loads (s : string) : option dict :=
  match skip_ws s with
  | EmptyString => None
  | String c r =>
      if negb (Ascii.eqb c "{") then None else
      match skip_ws r with
      | EmptyString => None
      | String c' r' =>
          if Ascii.eqb c' "}" then
            match skip_ws r' with
            | EmptyString => Some []
            | _ => None
            end
          else
            match parse_members (String.length s) (String c' r') [] with
            | Some (d, rest) =>
                match skip_ws rest with
                | EmptyString => Some d
                | _ => None
                end
            | None => None
            end
      end
  end.

(** ** main *)

(** The module docstring, [__doc__]. *)
Definition module_doc : string :=
  nl ++ "Time-aware search utility for external research." ++ nl
  ++ nl
  ++ "This script provides current date/time information in formats useful for" ++ nl
  ++ "constructing search queries that prioritize recent and relevant results." ++ nl
  ++ nl
  ++ "Usage:" ++ nl
  ++ "    python get_current_time.py           # Get all formats" ++ nl
  ++ "    python get_current_time.py --year    # Just the year" ++ nl
  ++ "    python get_current_time.py --search  # Search-friendly format" ++ nl.

Section Main.

Variable unicode_lower : string -> string.

Definition main (argv : list string) : Py unit :=
  time_info <- get_time_info ;;
  if (1 <? Z.of_nat (List.length argv)) then
    let arg := lower unicode_lower (nth 1 argv EmptyString) in
    if str_in arg ["--year"; "-y"] then
      v <- getitem time_info "year" ;; print v
    else if str_in arg ["--search"; "-s"] then
      v <- getitem time_info "search_suffix" ;; print v
    else if str_in arg ["--quarter"; "-q"] then
      v <- getitem time_info "quarter" ;; print v
    else if str_in arg ["--date"; "-d"] then
      v <- getitem time_info "date_iso" ;; print v
    else if str_in arg ["--json"; "-j"] then
      print (json_dumps_indent2 time_info)
    else if str_in arg ["--tips"; "-t"] then
      print_search_tips time_info
    else if str_in arg ["--help"; "-h"] then
      print module_doc ;;
      print (nl ++ "Options:") ;;
      print "  --year, -y     Just the current year (e.g., 2026)" ;;
      print "  --search, -s   Search-friendly suffix" ;;
      print "  --quarter, -q  Current quarter (e.g., Q1 2026)" ;;
      print "  --date, -d     ISO date (e.g., 2026-02-08)" ;;
      print "  --json, -j     All formats as JSON" ;;
      print "  --tips, -t     Print search tips with examples" ;;
      print "  --help, -h     Show this help message"
    else
      print ("Unknown argument: " ++ arg) ;;
      print "Use --help for usage information" ;;
      sys_exit 1
  else
    print_search_tips time_info.

End Main.

(** ** Running the script as a process *)

(** What a run shows from outside: the text on standard output and the
    exit status of the process. *)
Record Run : Type := mk_run { printed : string; exit_status : Z }.

(** The status the interpreter exits with: 0 when [main] returns, the
    code of a [SystemExit], 1 for any other uncaught exception. *)
Definition status_of {A} (r : result A) : Z :=
  match r with
  | Return _ => 0
  | Raise (SystemExit code) => code mod 256
  | Raise (KeyError _) => 1
  end.

Definition initial_world (clk : nat -> datetime) : World :=
  mk_world clk 0 [].

(** [python get_current_time.py args...]: [argv] is [sys.argv], script
    name first; [clk] gives the readings of the clock. *)
Definition run_script (unicode_lower : string -> string)
    (clk : nat -> datetime) (argv : list string) : Run :=
  let (r, w) := main unicode_lower argv (initial_world clk) in
  mk_run (String.concat EmptyString (stdout w)) (status_of r).

(** The instant a run captures: the first reading of the clock. *)
Definition captured (clk : nat -> datetime) : datetime := clk 0%nat.

(** ** Vocabulary of the properties *)

(** The flags of the dispatch chain, one group per branch, in the order
    of the chain. *)
Definition flag_groups : list (list string) :=
  [ ["--year"; "-y"]; ["--search"; "-s"]; ["--quarter"; "-q"];
    ["--date"; "-d"]; ["--json"; "-j"]; ["--tips"; "-t"]; ["--help"; "-h"] ].

Definition all_flags : list string := List.concat flag_groups.

(** A case-folded argument that selects one of the seven flag branches. *)
Definition recognized (arg : string) : bool := str_in arg all_flags.

(** The seven keys of the dict, in insertion order. *)
Definition time_info_keys : list string :=
  [ "year"; "year_short"; "month_year"; "quarter"; "date_iso";
    "search_suffix"; "full_datetime" ].

(** The text of a run of [print]s, one line (or block) per call. *)
Definition printed_lines (ls : list string) : string :=
  String.concat EmptyString (map (fun l => l ++ nl) ls).

(** The lines of the tips block for a year [y], quarter [q], date [d]. *)
Definition tips_lines (y q d : string) : list string :=
  [ str_repeat "=" 60;
    "TIME-AWARE SEARCH TIPS";
    str_repeat "=" 60;
    nl ++ "Current Year: " ++ y;
    "Current Quarter: " ++ q;
    "Current Date: " ++ d;
    EmptyString;
    "SEARCH QUERY EXAMPLES:";
    str_repeat "-" 40;
    "  " ++ dq ++ "FastAPI JWT authentication " ++ y ++ dq;
    "  " ++ dq ++ "React useEffect best practices " ++ y ++ dq;
    "  " ++ dq ++ "Python security vulnerabilities " ++ y ++ dq;
    "  " ++ dq ++ "Next.js 14 breaking changes " ++ y ++ dq;
    EmptyString;
    "WHY ADD THE YEAR?";
    str_repeat "-" 40;
    "  • Libraries and frameworks update frequently";
    "  • Best practices evolve over time";
    "  • Security recommendations change";
    "  • Adding the year filters out outdated content";
    "  • Results prioritize recent tutorials and docs";
    EmptyString;
    "SEARCH SUFFIXES TO TRY:";
    str_repeat "-" 40;
    "  " ++ dq ++ "[topic] " ++ y ++ dq ++ "          - General current info";
    "  " ++ dq ++ "[topic] latest " ++ y ++ dq ++ "   - Emphasize recency";
    "  " ++ dq ++ "[topic] best practices " ++ y ++ dq ++ " - Current standards";
    "  " ++ dq ++ "[topic] changelog " ++ y ++ dq ++ " - Recent changes";
    EmptyString ].

(** The tips block for an instant. *)
Definition tips_text (now : datetime) : string :=
  printed_lines
    (tips_lines (strftime now "%Y")
       ("Q" ++ str_of_int ((month now - 1) / 3 + 1) ++ " " ++ str_of_int (year now))
       (strftime now "%Y-%m-%d")).

(** The usage text of [--help]. *)
Definition help_text : string :=
  printed_lines
    [ module_doc;
      nl ++ "Options:";
      "  --year, -y     Just the current year (e.g., 2026)";
      "  --search, -s   Search-friendly suffix";
      "  --quarter, -q  Current quarter (e.g., Q1 2026)";
      "  --date, -d     ISO date (e.g., 2026-02-08)";
      "  --json, -j     All formats as JSON";
      "  --tips, -t     Print search tips with examples";
      "  --help, -h     Show this help message" ].

(** [sub] occurs in [s]. *)
Fixpoint contains (sub s : string) : bool :=
  String.prefix sub s ||
  match s with
  | EmptyString => false
  | String _ s' => contains sub s'
  end.

(** A character the JSON encoder copies unchanged: printable ASCII other
    than the double quote and the backslash. *)
Definition plain_char (c : ascii) : bool :=
  let n := N_of_ascii c in
  ((32 <=? n) && (n <=? 126) && negb (n =? 34) && negb (n =? 92))%N.

Fixpoint plain (s : string) : bool :=
  match s with
  | EmptyString => true
  | String c rest => plain_char c && plain rest
  end.

Definition plain_dict (d : dict) : bool :=
  forallb (fun kv => plain (fst kv) && plain (snd kv)) d.

(** The layout of the [--json] text: each member on its own line behind
    two spaces, keys and values verbatim between double quotes. *)
Definition json_member_line (kv : string * string) : string :=
  "  " ++ dq ++ fst kv ++ dq ++ ": " ++ dq ++ snd kv ++ dq.

Definition json_layout (d : dict) : string :=
  "{" ++ nl ++ str_join ("," ++ nl) (map json_member_line d) ++ nl ++ "}".

(** The dict a decoder builds from the members of an object, read left
    to right. *)
Definition dict_of_members (acc : dict) (members : list (string * string)) : dict :=
  fold_left (fun a kv => dict_set a (fst kv) (snd kv)) members acc.

(** The instant of the worked example, 2026-02-08 14:30:00. *)
Definition example_instant : datetime := mk_datetime 2026 2 8 14 30 0.

(** A clock that stands at the example instant, a case mapping that
    leaves non-ASCII text alone, and the name the script is started
    under, for the worked examples. *)
Definition example_clock : nat -> datetime := fun _ => example_instant.
Definition id_lower : string -> string := fun s => s.
Definition script_name : string := "get_current_time.py".

(** The decimal digit [r], as a constructor of a numeral and as a
    character. *)
Definition digit_uint (r : Z) (l : Decimal.uint) : Decimal.uint :=
  match r with
  | 0 => Decimal.D0 l | 1 => Decimal.D1 l | 2 => Decimal.D2 l
  | 3 => Decimal.D3 l | 4 => Decimal.D4 l | 5 => Decimal.D5 l
  | 6 => Decimal.D6 l | 7 => Decimal.D7 l | 8 => Decimal.D8 l
  | _ => Decimal.D9 l
  end.

Definition digit_char (r : Z) : ascii :=
  match r with
  | 0 => "0" | 1 => "1" | 2 => "2" | 3 => "3" | 4 => "4"
  | 5 => "5" | 6 => "6" | 7 => "7" | 8 => "8" | _ => "9"
  end%char.

(** ** Basic facts *)

Example encode_non_ascii :
  py_encode_basestring_ascii "a•b" = dq ++ "a" ++ bs ++ "u2022b" ++ dq.
Proof. reflexivity. Qed.

Example decode_escapes :
  json_loads (json_dumps_indent2 [("a•b", nl ++ dq ++ bs ++ "é")])
  = Some [("a•b", nl ++ dq ++ bs ++ "é")].
Proof. reflexivity. Qed.

Example lower_mixed_case (ul : string -> string) :
  lower ul "--YeAr" = "--year".
Proof. reflexivity. Qed.

Lemma get_time_info_run (w : World) :
  get_time_info w =
  (Return (time_info_of (clock w (reads w))),
   mk_world (clock w) (S (reads w)) (stdout w)).
Proof. reflexivity. Qed.

Lemma str_app_assoc (a b c : string) : (a ++ b) ++ c = a ++ b ++ c.
Proof. induction a as [|x a IH]; cbn; [reflexivity | now rewrite IH]. Qed.

Lemma str_app_nil_r (a : string) : a ++ EmptyString = a.
Proof. induction a as [|x a IH]; cbn; [reflexivity | now rewrite IH]. Qed.

Lemma str_length_app (a b : string) :
  String.length (a ++ b) = (String.length a + String.length b)%nat.
Proof. induction a as [|x a IH]; cbn; [reflexivity | now rewrite IH]. Qed.

Lemma prefix_app (a b : string) : String.prefix a (a ++ b) = true.
Proof.
  induction a as [|x a IH]; [destruct b; reflexivity|].
  cbn [append String.prefix]. destruct (ascii_dec x x); [exact IH | congruence].
Qed.

Lemma contains_prefix (sub s : string) :
  String.prefix sub s = true -> contains sub s = true.
Proof. intro H. destruct s; cbn [contains]; rewrite H; reflexivity. Qed.

Lemma prefix_split (a s : string) :
  String.prefix a s = true -> exists post, s = a ++ post.
Proof.
  revert s. induction a as [|x a IH]; intros s H.
  - exists s. reflexivity.
  - destruct s as [|y s]; [discriminate|].
    cbn [String.prefix] in H. destruct (ascii_dec x y) as [->|]; [|discriminate].
    destruct (IH s H) as [post ->]. exists post. reflexivity.
Qed.

(** [contains] decides the occurrence of a substring. *)
Lemma contains_spec (sub s : string) :
  contains sub s = true <-> exists pre post, s = pre ++ sub ++ post.
Proof.
  split.
  - induction s as [|c s IH]; cbn [contains]; intro H.
    + rewrite orb_false_r in H. apply prefix_split in H.
      destruct H as [post H]. exists EmptyString, post. exact H.
    + apply orb_true_iff in H. destruct H as [H|H].
      * apply prefix_split in H. destruct H as [post H].
        exists EmptyString, post. exact H.
      * destruct (IH H) as (pre & post & ->).
        exists (String c pre), post. reflexivity.
  - intros (pre & post & ->). induction pre as [|c pre IH].
    + cbn [append]. apply contains_prefix, prefix_app.
    + cbn [append contains]. rewrite IH. apply orb_true_r.
Qed.

(** *** Dispatch *)

Lemma argc_gt1 (p a : string) (rest : list string) :
  (1 <? Z.of_nat (List.length (p :: a :: rest))) = true.
Proof. apply Z.ltb_lt. cbn [List.length]. lia. Qed.

Lemma argc_le1 (argv : list string) :
  (List.length argv <= 1)%nat -> (1 <? Z.of_nat (List.length argv)) = false.
Proof. intro H. apply Z.ltb_ge. lia. Qed.

Lemma argv_shape (argv : list string) :
  (1 < List.length argv)%nat ->
  exists p rest, argv = p :: nth 1 argv EmptyString :: rest.
Proof.
  destruct argv as [|p [|a rest]]; cbn [List.length]; try lia.
  intros _. exists p, rest. reflexivity.
Qed.

Lemma str_in_pair (x a b : string) :
  str_in x [a; b] = true -> x = a \/ x = b.
Proof.
  unfold str_in. cbn [existsb]. rewrite orb_false_r.
  intro H. apply orb_true_iff in H.
  destruct H as [H|H]; apply String.eqb_eq in H; auto.
Qed.

Lemma str_in_In (x : string) (l : list string) :
  str_in x l = true <-> In x l.
Proof.
  unfold str_in. rewrite existsb_exists. split.
  - intros (y & Hy & E). apply String.eqb_eq in E. now subst.
  - intro H. exists x. split; [exact H | apply String.eqb_refl].
Qed.

Lemma unrecognized_tests (arg : string) :
  recognized arg = false ->
  str_in arg ["--year"; "-y"] = false /\
  str_in arg ["--search"; "-s"] = false /\
  str_in arg ["--quarter"; "-q"] = false /\
  str_in arg ["--date"; "-d"] = false /\
  str_in arg ["--json"; "-j"] = false /\
  str_in arg ["--tips"; "-t"] = false /\
  str_in arg ["--help"; "-h"] = false.
Proof.
  unfold recognized, str_in, all_flags, flag_groups.
  cbn [List.concat app existsb]. intro H.
  repeat (apply orb_false_elim in H; destruct H as [?E H]).
  rewrite E, E0, E1, E2, E3, E4, E5, E6, E7, E8, E9, E10, E11, E12.
  repeat split; reflexivity.
Qed.

Lemma recognized_group (arg : string) :
  recognized arg = true ->
  exists g, In g flag_groups /\ str_in arg g = true.
Proof.
  unfold recognized, all_flags. intro H. apply str_in_In in H.
  apply in_concat in H. destruct H as (g & Hg & Hin).
  exists g. split; [exact Hg | now apply str_in_In].
Qed.

Lemma group_recognized (arg : string) (g : list string) :
  In g flag_groups -> str_in arg g = true -> recognized arg = true.
Proof.
  intros Hg H. unfold recognized, all_flags. apply str_in_In.
  apply in_concat. exists g. split; [exact Hg | now apply str_in_In].
Qed.

(** The tips printer never misses a key of the dict it is given by
    [main], and writes the whole block. *)
Lemma tips_run (now : datetime) (w : World) :
  print_search_tips (time_info_of now) w =
  (Return tt,
   mk_world (clock w) (reads w)
     (stdout w ++ map (fun l => l ++ nl)
        (tips_lines (strftime now "%Y")
           ("Q" ++ str_of_int ((month now - 1) / 3 + 1) ++ " "
                ++ str_of_int (year now))
           (strftime now "%Y-%m-%d")))).
Proof.
  lazy beta iota zeta delta
    [print_search_tips bind getitem print dict_get time_info_of
     String.eqb Ascii.eqb Bool.eqb clock reads stdout].
  rewrite <- !app_assoc. reflexivity.
Qed.

Section RunLemmas.

Variable ul : string -> string.
Variable clk : nat -> datetime.

Ltac enter_main :=
  unfold run_script, main, bind; rewrite get_time_info_run;
  unfold initial_world; cbn [clock reads stdout].

Ltac dispatch_on H :=
  enter_main; rewrite argc_gt1; cbn [nth]; rewrite H;
  lazy beta iota zeta delta [str_in existsb String.eqb Ascii.eqb Bool.eqb orb].

Ltac by_flag H tac :=
  apply str_in_pair in H; destruct H as [H|H]; dispatch_on H; tac; reflexivity.

Lemma run_no_argument (argv : list string) :
  (List.length argv <= 1)%nat ->
  run_script ul clk argv = mk_run (tips_text (captured clk)) 0.
Proof.
  intro H. enter_main. rewrite (argc_le1 _ H), tips_run. reflexivity.
Qed.

Lemma run_year (p t : string) (rest : list string) :
  str_in (lower ul t) ["--year"; "-y"] = true ->
  run_script ul clk (p :: t :: rest) =
  mk_run (strftime (captured clk) "%Y" ++ nl) 0.
Proof. intro H. by_flag H idtac. Qed.

Lemma run_search (p t : string) (rest : list string) :
  str_in (lower ul t) ["--search"; "-s"] = true ->
  run_script ul clk (p :: t :: rest) =
  mk_run (strftime (captured clk) "%Y" ++ nl) 0.
Proof. intro H. by_flag H idtac. Qed.

Lemma run_quarter (p t : string) (rest : list string) :
  str_in (lower ul t) ["--quarter"; "-q"] = true ->
  run_script ul clk (p :: t :: rest) =
  mk_run (("Q" ++ str_of_int ((month (captured clk) - 1) / 3 + 1) ++ " "
               ++ str_of_int (year (captured clk))) ++ nl) 0.
Proof. intro H. by_flag H idtac. Qed.

Lemma run_date (p t : string) (rest : list string) :
  str_in (lower ul t) ["--date"; "-d"] = true ->
  run_script ul clk (p :: t :: rest) =
  mk_run (strftime (captured clk) "%Y-%m-%d" ++ nl) 0.
Proof. intro H. by_flag H idtac. Qed.

Lemma run_json (p t : string) (rest : list string) :
  str_in (lower ul t) ["--json"; "-j"] = true ->
  run_script ul clk (p :: t :: rest) =
  mk_run (json_dumps_indent2 (time_info_of (captured clk)) ++ nl) 0.
Proof. intro H. by_flag H idtac. Qed.

Lemma run_tips (p t : string) (rest : list string) :
  str_in (lower ul t) ["--tips"; "-t"] = true ->
  run_script ul clk (p :: t :: rest) = mk_run (tips_text (captured clk)) 0.
Proof. intro H. by_flag H ltac:(rewrite tips_run). Qed.

Lemma run_help (p t : string) (rest : list string) :
  str_in (lower ul t) ["--help"; "-h"] = true ->
  run_script ul clk (p :: t :: rest) = mk_run help_text 0.
Proof. intro H. by_flag H idtac. Qed.

Lemma run_unknown (p t : string) (rest : list string) :
  recognized (lower ul t) = false ->
  run_script ul clk (p :: t :: rest) =
  mk_run (printed_lines ["Unknown argument: " ++ lower ul t;
                         "Use --help for usage information"]) 1.
Proof.
  intro H. apply unrecognized_tests in H.
  destruct H as (H1 & H2 & H3 & H4 & H5 & H6 & H7).
  enter_main. rewrite argc_gt1. cbn [nth].
  rewrite H1, H2, H3, H4, H5, H6, H7. reflexivity.
Qed.

Lemma run_recognized_status (p t : string) (rest : list string) :
  recognized (lower ul t) = true ->
  exit_status (run_script ul clk (p :: t :: rest)) = 0.
Proof.
  intro H. apply recognized_group in H. destruct H as (g & Hg & Hin).
  cbn [flag_groups In] in Hg.
  destruct Hg as [<-|[<-|[<-|[<-|[<-|[<-|[<-|[]]]]]]]].
  - now rewrite run_year.
  - now rewrite run_search.
  - now rewrite run_quarter.
  - now rewrite run_date.
  - now rewrite run_json.
  - now rewrite run_tips.
  - now rewrite run_help.
Qed.

End RunLemmas.

(** *** Plain strings and the JSON codec *)

Lemma plain_app (a b : string) : plain (a ++ b) = plain a && plain b.
Proof.
  induction a as [|x a IH]; cbn [append plain]; [reflexivity|].
  rewrite IH. apply andb_assoc.
Qed.

Lemma plain_char_bounds (c : ascii) :
  plain_char c = true ->
  (32 <= N_of_ascii c <= 126)%N /\ N_of_ascii c <> 34%N /\ N_of_ascii c <> 92%N.
Proof.
  unfold plain_char. cbv zeta. rewrite !andb_true_iff, !negb_true_iff.
  rewrite !N.leb_le, !N.eqb_neq. tauto.
Qed.

Lemma ascii_eqb_code (c d : ascii) :
  N_of_ascii c <> N_of_ascii d -> Ascii.eqb c d = false.
Proof. intro H. apply Ascii.eqb_neq. intro E. apply H. now rewrite E. Qed.

Lemma plain_uint (d : Decimal.uint) : plain (NilEmpty.string_of_uint d) = true.
Proof. induction d; cbn [NilEmpty.string_of_uint plain]; try rewrite IHd; reflexivity. Qed.

Lemma plain_nilzero_uint (d : Decimal.uint) :
  plain (NilZero.string_of_uint d) = true.
Proof. destruct d; [reflexivity | apply plain_uint ..]. Qed.

Lemma plain_str_of_int (n : Z) : plain (str_of_int n) = true.
Proof.
  unfold str_of_int, NilZero.string_of_int.
  destruct (Z.to_int n) as [d|d]; [apply plain_nilzero_uint|].
  cbn [plain]. rewrite plain_nilzero_uint. reflexivity.
Qed.

Lemma plain_zero_pad (w : nat) (s : string) :
  plain s = true -> plain (zero_pad w s) = true.
Proof.
  intro H. unfold zero_pad. rewrite plain_app, H, andb_true_r.
  induction (w - String.length s)%nat as [|n IH]; [reflexivity|].
  cbn [str_repeat append plain]. exact IH.
Qed.

Lemma plain_month_name (m : Z) : plain (month_name m) = true.
Proof.
  unfold month_name. generalize (Z.to_nat (m - 1)). intro n.
  do 12 (destruct n as [|n]; [reflexivity|]). destruct n; reflexivity.
Qed.

Lemma plain_directive (c : ascii) (t : datetime) :
  plain_char c = true -> plain (directive c t) = true.
Proof.
  intro Hc. unfold directive.
  repeat match goal with
         | |- context [if ?b then _ else _] => destruct b
         end;
    try apply plain_zero_pad; try apply plain_str_of_int;
    try apply plain_month_name; try reflexivity.
  cbn [plain]. now rewrite Hc.
Qed.

(** A format of plain characters yields a plain text. *)
Lemma plain_strftime_from (n : nat) :
  forall (fmt : string) (t : datetime),
    (String.length fmt <= n)%nat -> plain fmt = true ->
    plain (strftime_from fmt t) = true.
Proof.
  induction n as [|n IH]; intros fmt t Hlen Hp.
  - destruct fmt; [reflexivity | cbn in Hlen; lia].
  - destruct fmt as [|c rest]; [reflexivity|].
    cbn [plain] in Hp. apply andb_true_iff in Hp. destruct Hp as [Hc Hrest].
    cbn [String.length] in Hlen. cbn [strftime_from].
    destruct (Ascii.eqb c "%").
    + destruct rest as [|d rest'].
      * cbn [plain]. now rewrite Hc.
      * cbn [plain] in Hrest. apply andb_true_iff in Hrest.
        destruct Hrest as [Hd Hrest']. cbn [String.length] in Hlen.
        rewrite plain_app, plain_directive by exact Hd.
        apply IH; [lia | exact Hrest'].
    + cbn [plain]. rewrite Hc. apply IH; [lia | exact Hrest].
Qed.

Lemma plain_strftime (t : datetime) (fmt : string) :
  plain fmt = true -> plain (strftime t fmt) = true.
Proof. apply (plain_strftime_from (String.length fmt)). lia. Qed.

Lemma plain_time_info (now : datetime) : plain_dict (time_info_of now) = true.
Proof.
  unfold plain_dict, time_info_of. cbn [forallb fst snd].
  rewrite !plain_strftime by reflexivity.
  rewrite !plain_app, !plain_str_of_int. reflexivity.
Qed.

Lemma escape_from_plain (s : string) :
  plain s = true -> escape_from None s = s.
Proof.
  induction s as [|c s IH]; [reflexivity|].
  cbn [plain escape_from]. rewrite andb_true_iff. intros [Hc Hs].
  apply plain_char_bounds in Hc. destruct Hc as (Hr & H34 & H92).
  cbv zeta.
  replace (N_of_ascii c <? 128)%N with true by (symmetry; apply N.ltb_lt; lia).
  replace (needs_escape (N_of_ascii c)) with false.
  - cbn [append]. now rewrite IH.
  - symmetry. unfold needs_escape. rewrite !orb_false_iff.
    rewrite !N.eqb_neq, !N.ltb_ge. lia.
Qed.

Lemma encode_plain (s : string) :
  plain s = true -> py_encode_basestring_ascii s = dq ++ s ++ dq.
Proof. intro H. unfold py_encode_basestring_ascii. now rewrite escape_from_plain. Qed.

Lemma scan_string_plain (s rest : string) :
  plain s = true ->
  scan_string None (s ++ String "034" rest) = Some (s, rest).
Proof.
  induction s as [|c s IH]; [reflexivity|].
  cbn [plain]. rewrite andb_true_iff. intros [Hc Hs].
  apply plain_char_bounds in Hc. destruct Hc as (Hr & H34 & H92).
  cbn [append scan_string].
  rewrite (ascii_eqb_code c "034") by (cbn; lia).
  rewrite (ascii_eqb_code c "092") by (cbn; lia).
  replace (N_of_ascii c <? 32)%N with false by (symmetry; apply N.ltb_ge; lia).
  rewrite (IH Hs). reflexivity.
Qed.

Lemma parse_one_member (fuel : nat) (k v tail : string) (acc : dict) :
  plain k = true -> plain v = true ->
  forall c3 r5, skip_ws tail = String c3 r5 ->
  parse_members (S fuel) (json_item (k, v) ++ tail) acc =
    if Ascii.eqb c3 "," then parse_members fuel (skip_ws r5) (dict_set acc k v)
    else if Ascii.eqb c3 "}" then Some (dict_set acc k v, r5)
    else None.
Proof.
  intros Hk Hv c3 r5 Ht.
  unfold json_item. cbn [fst snd]. rewrite !encode_plain by assumption.
  rewrite !str_app_assoc.
  cbn [parse_members append dq Ascii.eqb Bool.eqb negb].
  rewrite scan_string_plain by assumption.
  cbn [skip_ws append is_json_ws Ascii.eqb Bool.eqb orb negb].
  rewrite scan_string_plain by assumption.
  rewrite Ht. reflexivity.
Qed.

Lemma json_item_head (kv : string * string) :
  exists r, json_item kv = String "034" r.
Proof. unfold json_item, py_encode_basestring_ascii. cbn [dq append]. eauto. Qed.

Lemma parse_members_join (d : dict) :
  forall (kv : string * string) (acc : dict) (fuel : nat) (tail : string),
    plain_dict (kv :: d) = true ->
    (List.length d < fuel)%nat ->
    parse_members fuel
      (str_join ("," ++ nl ++ "  ") (map json_item (kv :: d)) ++ nl ++ "}" ++ tail) acc
    = Some (dict_of_members acc (kv :: d), tail).
Proof.
  induction d as [|kv' d IH]; intros [k v] acc fuel tail Hp Hf.
  - destruct fuel as [|fuel]; [cbn in Hf; lia|].
    cbn [plain_dict forallb fst snd] in Hp. rewrite andb_true_r in Hp.
    apply andb_true_iff in Hp. destruct Hp as [Hk Hv].
    cbn [map str_join].
    rewrite (parse_one_member fuel k v _ acc Hk Hv "}"%char tail) by reflexivity.
    reflexivity.
  - destruct fuel as [|fuel]; [cbn in Hf; lia|].
    cbn [plain_dict forallb] in Hp. apply andb_true_iff in Hp.
    destruct Hp as [Hkv Hp]. cbn [fst snd] in Hkv.
    apply andb_true_iff in Hkv. destruct Hkv as [Hk Hv].
    change (map json_item ((k, v) :: kv' :: d))
      with (json_item (k, v) :: map json_item (kv' :: d)).
    change (str_join ?s (json_item (k, v) :: map json_item (kv' :: d)))
      with (json_item (k, v) ++ s ++ str_join s (map json_item (kv' :: d))).
    rewrite !str_app_assoc.
    destruct (json_item_head kv') as [r Hr].
    rewrite (parse_one_member fuel k v _ acc Hk Hv ","%char
               ((nl ++ "  ") ++ str_join ("," ++ nl ++ "  ") (map json_item (kv' :: d))
                ++ nl ++ "}" ++ tail)) by reflexivity.
    cbn [Ascii.eqb Bool.eqb].
    replace (skip_ws ((nl ++ "  ") ++ str_join ("," ++ nl ++ "  ") (map json_item (kv' :: d))
                      ++ nl ++ "}" ++ tail))
      with (str_join ("," ++ nl ++ "  ") (map json_item (kv' :: d)) ++ nl ++ "}" ++ tail).
    + rewrite IH; [reflexivity | exact Hp | cbn [List.length] in Hf; lia].
    + cbn [map str_join]. destruct d; cbn [map str_join]; rewrite Hr; reflexivity.
Qed.

Lemma join_items_length (d : dict) (sep : string) :
  (List.length d <= String.length (str_join sep (map json_item d)))%nat.
Proof.
  induction d as [|kv d IH]; [cbn; lia|].
  destruct (json_item_head kv) as [r Hr].
  destruct d as [|kv' d].
  - cbn [map str_join List.length]. rewrite Hr. cbn [String.length]. lia.
  - change (str_join sep (map json_item (kv :: kv' :: d)))
      with (json_item kv ++ sep ++ str_join sep (map json_item (kv' :: d))).
    rewrite Hr, !str_length_app. cbn [String.length].
    cbn [List.length] in *. lia.
Qed.

(** Decoding the text of [json.dumps(d, indent=2)], whatever white space
    follows it, rebuilds the members of [d] in order. *)
Lemma json_loads_dumps (d : dict) (tail : string) :
  plain_dict d = true -> skip_ws tail = EmptyString ->
  json_loads (json_dumps_indent2 d ++ tail) = Some (dict_of_members [] d).
Proof.
  intros Hp Ht. destruct d as [|kv d].
  - unfold json_loads. cbn. rewrite Ht. reflexivity.
  - unfold json_loads, json_dumps_indent2.
    destruct (json_item_head kv) as [r Hr].
    set (body := str_join ("," ++ nl ++ "  ") (map json_item (kv :: d))).
    assert (Hb : exists r', body = String "034" r').
    { subst body. destruct d; cbn [map str_join]; rewrite Hr; cbn [append]; eauto. }
    destruct Hb as [r' Hr'].
    rewrite !str_app_assoc.
    cbn [append nl skip_ws is_json_ws Ascii.eqb Bool.eqb orb negb].
    rewrite Hr'. cbn [append skip_ws is_json_ws Ascii.eqb Bool.eqb orb negb].
    change (String "034" (r' ++ ?x)) with (String "034" r' ++ x).
    rewrite <- Hr'.
    change (String "010" (String "}" tail)) with (nl ++ "}" ++ tail).
    subst body. rewrite parse_members_join.
    + rewrite Ht. reflexivity.
    + exact Hp.
    + cbn [String.length]. rewrite str_length_app.
      pose proof (join_items_length (kv :: d) ("," ++ nl ++ "  ")) as Hl.
      cbn [List.length] in Hl. lia.
Qed.

Lemma dict_set_fresh (acc : dict) (k v : string) :
  ~ In k (dict_keys acc) -> dict_set acc k v = (acc ++ [(k, v)])%list.
Proof.
  induction acc as [|[k' v'] acc IH]; intro H; [reflexivity|].
  cbn [dict_set app]. cbn [dict_keys map fst In] in H.
  destruct (String.eqb_spec k' k) as [E|E]; [tauto|].
  rewrite IH; [reflexivity | tauto].
Qed.

Lemma dict_of_members_distinct (d acc : dict) :
  NoDup (dict_keys acc ++ dict_keys d)%list ->
  dict_of_members acc d = (acc ++ d)%list.
Proof.
  revert acc. induction d as [|[k v] d IH]; intros acc H.
  - cbn. now rewrite app_nil_r.
  - cbn [dict_of_members fold_left fst snd].
    change (fold_left _ d ?a) with (dict_of_members a d).
    cbn [dict_keys map fst] in H.
    rewrite dict_set_fresh.
    + rewrite IH.
      * now rewrite <- app_assoc.
      * unfold dict_keys. rewrite map_app, <- app_assoc. exact H.
    + apply NoDup_remove_2 in H. intro Hin. apply H. apply in_or_app. now left.
Qed.

Lemma time_info_keys_of (now : datetime) :
  dict_keys (time_info_of now) = time_info_keys.
Proof. reflexivity. Qed.

Lemma time_info_keys_distinct : NoDup time_info_keys.
Proof.
  unfold time_info_keys.
  repeat (constructor; [cbn [In]; intuition discriminate|]). constructor.
Qed.

(** The layout of the encoder's text on plain members. *)
Lemma json_dumps_layout (d : dict) :
  d <> [] -> plain_dict d = true -> json_dumps_indent2 d = json_layout d.
Proof.
  intros Hne Hp. destruct d as [|kv d]; [congruence|]. clear Hne.
  unfold json_dumps_indent2, json_layout. do 2 f_equal.
  rewrite <- str_app_assoc. f_equal.
  revert kv Hp. induction d as [|kv' d IH]; intros [k v] Hp.
  - cbn [plain_dict forallb fst snd] in Hp. rewrite andb_true_r in Hp.
    apply andb_true_iff in Hp. destruct Hp as [Hk Hv].
    cbn [map str_join]. unfold json_item, json_member_line. cbn [fst snd].
    rewrite !encode_plain by assumption. now rewrite !str_app_assoc.
  - cbn [plain_dict forallb] in Hp. apply andb_true_iff in Hp.
    destruct Hp as [Hkv Hp]. cbn [fst snd] in Hkv.
    apply andb_true_iff in Hkv. destruct Hkv as [Hk Hv].
    change (map ?f ((k, v) :: kv' :: d)) with (f (k, v) :: map f (kv' :: d)).
    change (str_join ?s (?x :: map ?f (kv' :: d)))
      with (x ++ s ++ str_join s (map f (kv' :: d))).
    rewrite <- (IH kv' Hp).
    unfold json_item at 1. unfold json_member_line at 1. cbn [fst snd].
    rewrite !encode_plain by assumption. now rewrite !str_app_assoc.
Qed.

Lemma lower_ascii (ul : string -> string) (t : string) :
  is_ascii t = true -> lower ul t = ascii_lower t.
Proof. intro H. unfold lower. now rewrite H. Qed.

(** Two first arguments that fold into the same flag group give the same
    run. *)
Lemma same_group_same_run (ul : string -> string) (clk : nat -> datetime)
    (g : list string) (p1 t1 : string) (r1 : list string)
    (p2 t2 : string) (r2 : list string) :
  In g flag_groups -> In (lower ul t1) g -> In (lower ul t2) g ->
  run_script ul clk (p1 :: t1 :: r1) = run_script ul clk (p2 :: t2 :: r2).
Proof.
  intros Hg H1 H2. apply str_in_In in H1. apply str_in_In in H2.
  cbn [flag_groups In] in Hg.
  destruct Hg as [<-|[<-|[<-|[<-|[<-|[<-|[<-|[]]]]]]]].
  - now rewrite !run_year.
  - now rewrite !run_search.
  - now rewrite !run_quarter.
  - now rewrite !run_date.
  - now rewrite !run_json.
  - now rewrite !run_tips.
  - now rewrite !run_help.
Qed.

(** An ASCII spelling of a flag in any letter case selects the branch of
    that flag. *)
Lemma case_variants_agree (ul : string -> string) (clk : nat -> datetime)
    (g : list string) (p1 t1 : string) (r1 : list string)
    (p2 t2 : string) (r2 : list string) :
  In g flag_groups ->
  is_ascii t1 = true -> In (ascii_lower t1) g ->
  is_ascii t2 = true -> In (ascii_lower t2) g ->
  run_script ul clk (p1 :: t1 :: r1) = run_script ul clk (p2 :: t2 :: r2).
Proof.
  intros Hg A1 H1 A2 H2. apply (same_group_same_run ul clk g); trivial.
  - now rewrite lower_ascii.
  - now rewrite lower_ascii.
Qed.

(** ** The claims *)

(** C1 (as amended).  For every first argument whose case-folded form is
    no listed flag, the output starts with the line
    [Unknown argument: ] followed by the case-folded argument, and the
    exit status is not zero. *)
Theorem unknown_argument_reported (ul : string -> string)
    (clk : nat -> datetime) (p t : string) (rest : list string) :
  recognized (lower ul t) = false ->
  let r := run_script ul clk (p :: t :: rest) in
  (exists tail, printed r = "Unknown argument: " ++ lower ul t ++ nl ++ tail) /\
  exit_status r <> 0.
Proof.
  intro H. cbv zeta. rewrite run_unknown by exact H.
  cbn [printed exit_status]. split; [|discriminate].
  exists ("Use --help for usage information" ++ nl).
  unfold printed_lines. cbn [map String.concat].
  now rewrite !str_app_assoc.
Qed.

Lemma unknown_argument_reported_bogus :
  recognized (lower id_lower "--bogus") = false /\
  (exists tail,
      printed (run_script id_lower example_clock [script_name; "--bogus"])
      = "Unknown argument: --bogus" ++ nl ++ tail) /\
  exit_status (run_script id_lower example_clock [script_name; "--bogus"]) <> 0.
Proof.
  split; [reflexivity|].
  apply (unknown_argument_reported id_lower example_clock script_name "--bogus" []).
  reflexivity.
Defined.

(** C1, as stated, fails: a token in mixed case is reported in lower
    case, not as typed, and a second line follows the report. *)
Lemma unknown_argument_original_token_refuted :
  let r := run_script id_lower example_clock [script_name; "--Bogus"] in
  recognized (lower id_lower "--Bogus") = false /\
  printed r = "Unknown argument: --bogus" ++ nl
              ++ "Use --help for usage information" ++ nl /\
  ~ (exists pre post, printed r = pre ++ "Unknown argument: --Bogus" ++ post) /\
  printed (run_script id_lower example_clock [script_name; "--bogus"])
    <> "Unknown argument: --bogus" ++ nl.
Proof.
  cbv zeta. split; [reflexivity|]. split; [reflexivity|]. split.
  - intro H. apply contains_spec in H. vm_compute in H. discriminate.
  - vm_compute. discriminate.
Qed.

(** C2.  The quarter field is [Q], the numeral [(month - 1) / 3 + 1], a
    space and the year; on a valid instant the numeral is 1, 2, 3 or 4. *)
Theorem quarter_field (w : World) :
  valid_datetime (clock w (reads w)) = true ->
  let now := clock w (reads w) in
  let n := (month now - 1) / 3 + 1 in
  let Y := str_of_int (year now) in
  exists d w',
    get_time_info w = (Return d, w') /\
    dict_get d "quarter" = Some ("Q" ++ str_of_int n ++ " " ++ Y) /\
    (n = 1 \/ n = 2 \/ n = 3 \/ n = 4) /\
    In ("Q" ++ str_of_int n ++ " " ++ Y)
       ["Q1 " ++ Y; "Q2 " ++ Y; "Q3 " ++ Y; "Q4 " ++ Y].
Proof.
  intro Hv. cbv zeta. rewrite get_time_info_run.
  eexists. eexists. split; [reflexivity|]. split; [reflexivity|].
  unfold valid_datetime in Hv. rewrite !andb_true_iff in Hv.
  destruct Hv as (((((((((((_ & _) & Hm1) & Hm2) & _) & _) & _) & _) & _) & _) & _) & _).
  apply Z.leb_le in Hm1, Hm2.
  set (m := month (clock w (reads w))) in *.
  assert (Hn : 1 <= (m - 1) / 3 + 1 <= 4).
  { assert (0 <= (m - 1) / 3) by (apply Z.div_pos; lia).
    assert ((m - 1) / 3 < 4) by (apply Z.div_lt_upper_bound; lia). lia. }
  assert (Hc : (m - 1) / 3 + 1 = 1 \/ (m - 1) / 3 + 1 = 2 \/
               (m - 1) / 3 + 1 = 3 \/ (m - 1) / 3 + 1 = 4) by lia.
  split; [exact Hc|].
  destruct Hc as [E|[E|[E|E]]]; rewrite E; cbn [In]; auto.
Qed.

Lemma quarter_field_example :
  valid_datetime example_instant = true /\
  exists d w',
    get_time_info (initial_world example_clock) = (Return d, w') /\
    dict_get d "quarter" = Some "Q1 2026" /\
    ((month example_instant - 1) / 3 + 1 = 1 \/
     (month example_instant - 1) / 3 + 1 = 2 \/
     (month example_instant - 1) / 3 + 1 = 3 \/
     (month example_instant - 1) / 3 + 1 = 4) /\
    In "Q1 2026" ["Q1 2026"; "Q2 2026"; "Q3 2026"; "Q4 2026"].
Proof.
  split; [reflexivity|].
  apply (quarter_field (initial_world example_clock)). reflexivity.
Defined.

(** C3.  With [--json] (or [-j]) the run prints the seven members in
    insertion order, each on its own line behind two spaces, and exits
    with status 0; decoding the printed text gives back exactly the dict
    that [get_time_info] computes for the same instant. *)
Theorem json_output_round_trip (ul : string -> string)
    (clk : nat -> datetime) (p t : string) (rest : list string) :
  str_in (lower ul t) ["--json"; "-j"] = true ->
  let r := run_script ul clk (p :: t :: rest) in
  let d := time_info_of (captured clk) in
  r = mk_run (json_layout d ++ nl) 0 /\
  dict_keys d = time_info_keys /\
  fst (get_time_info (initial_world clk)) = Return d /\
  json_loads (printed r) = Some d.
Proof.
  intro H. cbv zeta. rewrite run_json by exact H.
  rewrite json_dumps_layout by (discriminate || apply plain_time_info).
  split; [reflexivity|]. split; [reflexivity|]. split; [reflexivity|].
  cbn [printed].
  rewrite <- json_dumps_layout by (discriminate || apply plain_time_info).
  rewrite json_loads_dumps by (apply plain_time_info || reflexivity).
  rewrite dict_of_members_distinct; [reflexivity|].
  cbn [dict_keys map app]. rewrite (time_info_keys_of (captured clk)).
  exact time_info_keys_distinct.
Qed.

Lemma json_output_round_trip_example :
  str_in (lower id_lower "--JSON") ["--json"; "-j"] = true /\
  run_script id_lower example_clock [script_name; "--JSON"]
    = mk_run (json_layout (time_info_of example_instant) ++ nl) 0 /\
  dict_keys (time_info_of example_instant) = time_info_keys /\
  fst (get_time_info (initial_world example_clock))
    = Return (time_info_of example_instant) /\
  json_loads (printed (run_script id_lower example_clock [script_name; "--JSON"]))
    = Some (time_info_of example_instant).
Proof.
  split; [reflexivity|].
  apply (json_output_round_trip id_lower example_clock script_name "--JSON" []).
  reflexivity.
Defined.

(** C4.  [get_time_info] reads the clock exactly once and returns the
    dict built from that one reading: two calls that capture the same
    instant return the same seven fields, whatever the clock shows
    afterwards. *)
Theorem get_time_info_deterministic (w1 w2 : World) :
  clock w1 (reads w1) = clock w2 (reads w2) ->
  fst (get_time_info w1) = fst (get_time_info w2) /\
  fst (get_time_info w1) = Return (time_info_of (clock w1 (reads w1))) /\
  reads (snd (get_time_info w1)) = S (reads w1).
Proof.
  intro H. rewrite !get_time_info_run. cbn [fst snd reads].
  rewrite H. repeat split; reflexivity.
Qed.

Lemma get_time_info_deterministic_example :
  let later := mk_datetime 2031 12 31 23 59 59 in
  let w1 := mk_world (fun n => match n with O => example_instant | _ => later end)
                     0 [] in
  let w2 := mk_world (fun n => match n with 3%nat => example_instant | _ => later end)
                     3 ["earlier output"] in
  clock w1 (reads w1) = clock w2 (reads w2) /\
  fst (get_time_info w1) = fst (get_time_info w2) /\
  fst (get_time_info w1) = Return (time_info_of (clock w1 (reads w1))) /\
  reads (snd (get_time_info w1)) = S (reads w1).
Proof.
  cbv zeta. split; [reflexivity|].
  apply get_time_info_deterministic. reflexivity.
Defined.

(** C5.  In the dict [get_time_info] returns, [search_suffix] and [year]
    hold the same text, and [--search] prints what [--year] prints. *)
Theorem search_suffix_is_year (ul : string -> string) (w : World)
    (clk : nat -> datetime) (p : string) :
  (exists d w',
      get_time_info w = (Return d, w') /\
      dict_get d "search_suffix" = dict_get d "year" /\
      dict_get d "year" = Some (strftime (clock w (reads w)) "%Y")) /\
  run_script ul clk [p; "--search"] = run_script ul clk [p; "--year"].
Proof.
  split.
  - rewrite get_time_info_run. eexists. eexists. repeat split; reflexivity.
  - rewrite run_search, run_year by reflexivity. reflexivity.
Qed.

(** C6.  Two first arguments whose case-folded forms are flags of one
    group, aliases or any spelling in other letter case, give the same
    output and exit status for the same captured instant. *)
Theorem dispatch_case_insensitive (ul : string -> string)
    (clk : nat -> datetime) (g : list string)
    (p1 t1 : string) (r1 : list string) (p2 t2 : string) (r2 : list string) :
  In g flag_groups -> In (lower ul t1) g -> In (lower ul t2) g ->
  run_script ul clk (p1 :: t1 :: r1) = run_script ul clk (p2 :: t2 :: r2).
Proof. apply same_group_same_run. Qed.

Lemma dispatch_case_insensitive_year :
  In ["--year"; "-y"] flag_groups /\
  In (lower id_lower "--YEAR") ["--year"; "-y"] /\
  In (lower id_lower "-y") ["--year"; "-y"] /\
  In (lower id_lower "--year") ["--year"; "-y"] /\
  run_script id_lower example_clock [script_name; "--YEAR"]
    = run_script id_lower example_clock [script_name; "-y"] /\
  run_script id_lower example_clock [script_name; "--year"]
    = run_script id_lower example_clock [script_name; "-y"].
Proof.
  split; [cbn; tauto|]. split; [cbn; tauto|].
  split; [cbn; tauto|]. split; [cbn; tauto|].
  split.
  - apply (dispatch_case_insensitive id_lower example_clock ["--year"; "-y"]);
      cbn; tauto.
  - apply (dispatch_case_insensitive id_lower example_clock ["--year"; "-y"]);
      cbn; tauto.
Defined.

(** C7.  With the clock at 2026-02-08 14:30:00, [--quarter] prints
    [Q1 2026], [--date] prints [2026-02-08], [--year] prints [2026], and
    the run without argument prints a text that contains
    [Current Quarter: Q1 2026]. *)
Theorem example_scenario (ul : string -> string) (clk : nat -> datetime)
    (p : string) :
  captured clk = example_instant ->
  run_script ul clk [p; "--quarter"] = mk_run ("Q1 2026" ++ nl) 0 /\
  run_script ul clk [p; "--date"] = mk_run ("2026-02-08" ++ nl) 0 /\
  run_script ul clk [p; "--year"] = mk_run ("2026" ++ nl) 0 /\
  exists pre post,
    printed (run_script ul clk [p]) = pre ++ "Current Quarter: Q1 2026" ++ post.
Proof.
  intro H.
  rewrite run_quarter, run_date, run_year by reflexivity.
  rewrite run_no_argument by (cbn; lia). rewrite H.
  repeat split; try reflexivity.
  apply contains_spec. vm_compute. reflexivity.
Qed.

Lemma example_scenario_run :
  captured example_clock = example_instant /\
  run_script id_lower example_clock [script_name; "--quarter"]
    = mk_run ("Q1 2026" ++ nl) 0 /\
  run_script id_lower example_clock [script_name; "--date"]
    = mk_run ("2026-02-08" ++ nl) 0 /\
  run_script id_lower example_clock [script_name; "--year"]
    = mk_run ("2026" ++ nl) 0 /\
  exists pre post,
    printed (run_script id_lower example_clock [script_name])
    = pre ++ "Current Quarter: Q1 2026" ++ post.
Proof.
  split; [reflexivity|].
  apply (example_scenario id_lower example_clock script_name). reflexivity.
Defined.

(** C8.  Without an argument the run prints the tips block; with one of
    the seven flags (in either spelling, any letter case) it prints what
    the flag selects; each of these runs exits with status 0.  The exit
    status is non-zero exactly when there is a first argument that is no
    flag, and then it is 1. *)
Theorem recognized_branches_exit_zero (ul : string -> string)
    (clk : nat -> datetime) (argv : list string) :
  let r := run_script ul clk argv in
  let now := captured clk in
  let arg := lower ul (nth 1 argv EmptyString) in
  ((List.length argv <= 1)%nat -> r = mk_run (tips_text now) 0) /\
  ((1 < List.length argv)%nat ->
     (str_in arg ["--year"; "-y"] = true ->
        r = mk_run (strftime now "%Y" ++ nl) 0) /\
     (str_in arg ["--search"; "-s"] = true ->
        r = mk_run (strftime now "%Y" ++ nl) 0) /\
     (str_in arg ["--quarter"; "-q"] = true ->
        r = mk_run (("Q" ++ str_of_int ((month now - 1) / 3 + 1) ++ " "
                         ++ str_of_int (year now)) ++ nl) 0) /\
     (str_in arg ["--date"; "-d"] = true ->
        r = mk_run (strftime now "%Y-%m-%d" ++ nl) 0) /\
     (str_in arg ["--json"; "-j"] = true ->
        r = mk_run (json_dumps_indent2 (time_info_of now) ++ nl) 0) /\
     (str_in arg ["--tips"; "-t"] = true -> r = mk_run (tips_text now) 0) /\
     (str_in arg ["--help"; "-h"] = true -> r = mk_run help_text 0) /\
     (recognized arg = false -> exit_status r = 1)) /\
  (exit_status r <> 0 <->
   (1 < List.length argv)%nat /\ recognized arg = false).
Proof.
  cbv zeta. split; [apply run_no_argument|]. split.
  - intro Hlen. destruct (argv_shape argv Hlen) as (p & rest & E).
    set (t := nth 1 argv EmptyString) in *. clearbody t. subst argv.
    repeat split; intro H.
    + now apply run_year.
    + now apply run_search.
    + now apply run_quarter.
    + now apply run_date.
    + now apply run_json.
    + now apply run_tips.
    + now apply run_help.
    + now rewrite run_unknown.
  - destruct (Nat.le_gt_cases (List.length argv) 1) as [Hle|Hgt].
    + rewrite run_no_argument by exact Hle. cbn [exit_status].
      split; [congruence | lia].
    + destruct (argv_shape argv Hgt) as (p & rest & E).
      set (t := nth 1 argv EmptyString) in *. clearbody t. subst argv.
      destruct (recognized (lower ul t)) eqn:R.
      * rewrite run_recognized_status by exact R.
        split; [congruence | intros [_ ?]; discriminate].
      * rewrite run_unknown by exact R. cbn [exit_status].
        split; [intros _; split; [exact Hgt | reflexivity] | discriminate].
Qed.

Lemma recognized_branches_exit_zero_runs :
  run_script id_lower example_clock [script_name]
    = mk_run (tips_text example_instant) 0 /\
  run_script id_lower example_clock [script_name; "-H"] = mk_run help_text 0 /\
  run_script id_lower example_clock [script_name; "-T"]
    = mk_run (tips_text example_instant) 0 /\
  exit_status (run_script id_lower example_clock [script_name; "--bogus"]) = 1.
Proof.
  pose proof (recognized_branches_exit_zero id_lower example_clock [script_name])
    as (H0 & _).
  pose proof (recognized_branches_exit_zero id_lower example_clock
                [script_name; "-H"]) as (_ & H1 & _).
  pose proof (recognized_branches_exit_zero id_lower example_clock
                [script_name; "-T"]) as (_ & H2 & _).
  pose proof (recognized_branches_exit_zero id_lower example_clock
                [script_name; "--bogus"]) as (_ & H3 & _).
  cbv zeta in *.
  split; [apply H0; cbn; lia|].
  split; [apply H1; [cbn; lia | reflexivity]|].
  split; [apply H2; [cbn; lia | reflexivity]|].
  apply H3; [cbn; lia | reflexivity].
Defined.

(** C9.  For every first argument whose case-folded form is no flag, the
    run writes two lines, [Unknown argument: ] with the case-folded
    argument and [Use --help for usage information], and exits with
    status 1. *)
Theorem unknown_argument_two_lines (ul : string -> string)
    (clk : nat -> datetime) (p t : string) (rest : list string) :
  recognized (lower ul t) = false ->
  run_script ul clk (p :: t :: rest) =
  mk_run ("Unknown argument: " ++ lower ul t ++ nl
          ++ "Use --help for usage information" ++ nl) 1.
Proof.
  intro H. rewrite run_unknown by exact H. f_equal.
  unfold printed_lines. cbn [map String.concat].
  now rewrite !str_app_assoc.
Qed.

Lemma unknown_argument_two_lines_mixed_case :
  recognized (lower id_lower "--Bogus") = false /\
  run_script id_lower example_clock [script_name; "--Bogus"] =
  mk_run ("Unknown argument: --bogus" ++ nl
          ++ "Use --help for usage information" ++ nl) 1.
Proof.
  split; [reflexivity|].
  apply (unknown_argument_two_lines id_lower example_clock script_name "--Bogus" []).
  reflexivity.
Defined.

(** C10.  Only the first argument counts: a run with further arguments
    behind it equals the run without them, so [--year --json] behaves as
    [--year]. *)
Theorem later_arguments_ignored (ul : string -> string)
    (clk : nat -> datetime) (p a : string) (rest : list string) :
  run_script ul clk (p :: a :: rest) = run_script ul clk [p; a] /\
  run_script ul clk [p; "--year"; "--json"]
    = mk_run (strftime (captured clk) "%Y" ++ nl) 0.
Proof.
  split.
  - unfold run_script, main, bind. rewrite !get_time_info_run.
    rewrite !argc_gt1. cbn [nth]. reflexivity.
  - now rewrite run_year.
Qed.

(** ** Further properties of the three functions *)

Ltac step_tips :=
  lazy beta iota zeta delta
    [print_search_tips bind getitem print clock reads stdout].

(** X1.  Given any dict that holds [year], [quarter] and [date_iso],
    [print_search_tips] returns normally, writes the block built from
    these three values and nothing else, and leaves the clock alone. *)
Theorem tips_printer_uses_three_keys (d : dict) (y q dt : string) (w : World) :
  dict_get d "year" = Some y ->
  dict_get d "quarter" = Some q ->
  dict_get d "date_iso" = Some dt ->
  print_search_tips d w =
  (Return tt,
   mk_world (clock w) (reads w)
     (stdout w ++ map (fun l => l ++ nl) (tips_lines y q dt))).
Proof.
  intros Hy Hq Hd. step_tips.
  rewrite Hy. step_tips. rewrite Hq. step_tips. rewrite Hd. step_tips.
  rewrite <- !app_assoc. reflexivity.
Qed.

Lemma tips_printer_uses_three_keys_example :
  let d := [("date_iso", "2026-02-08"); ("note", "ignored");
            ("quarter", "Q1 2026"); ("year", "2026")] in
  dict_get d "year" = Some "2026" /\
  dict_get d "quarter" = Some "Q1 2026" /\
  dict_get d "date_iso" = Some "2026-02-08" /\
  print_search_tips d (initial_world example_clock) =
  (Return tt,
   mk_world example_clock 0
     (map (fun l => l ++ nl) (tips_lines "2026" "Q1 2026" "2026-02-08"))).
Proof.
  cbv zeta. repeat (split; [reflexivity|]).
  apply (tips_printer_uses_three_keys _ "2026" "Q1 2026" "2026-02-08"
           (initial_world example_clock)); reflexivity.
Defined.

(** X2.  When one of the three keys is missing, [print_search_tips]
    raises [KeyError] for the first one missing, in the order [year],
    [quarter], [date_iso]; the banner and the lines before the failing
    one are already written by then, and nothing after them. *)
Theorem tips_printer_missing_key (d : dict) (w : World) :
  let banner := [str_repeat "=" 60 ++ nl; "TIME-AWARE SEARCH TIPS" ++ nl;
                 str_repeat "=" 60 ++ nl] in
  (dict_get d "year" = None ->
   print_search_tips d w =
   (Raise (KeyError "year"),
    mk_world (clock w) (reads w) (stdout w ++ banner))) /\
  (forall y, dict_get d "year" = Some y -> dict_get d "quarter" = None ->
   print_search_tips d w =
   (Raise (KeyError "quarter"),
    mk_world (clock w) (reads w)
      (stdout w ++ banner ++ [(nl ++ "Current Year: " ++ y) ++ nl]))) /\
  (forall y q, dict_get d "year" = Some y -> dict_get d "quarter" = Some q ->
   dict_get d "date_iso" = None ->
   print_search_tips d w =
   (Raise (KeyError "date_iso"),
    mk_world (clock w) (reads w)
      (stdout w ++ banner ++ [(nl ++ "Current Year: " ++ y) ++ nl;
                              ("Current Quarter: " ++ q) ++ nl]))).
Proof.
  cbv zeta. repeat split.
  - intro Hy. step_tips. rewrite Hy. rewrite <- !app_assoc. reflexivity.
  - intros y Hy Hq. step_tips. rewrite Hy. step_tips. rewrite Hq.
    rewrite <- !app_assoc. reflexivity.
  - intros y q Hy Hq Hd. step_tips. rewrite Hy. step_tips. rewrite Hq.
    step_tips. rewrite Hd. rewrite <- !app_assoc. reflexivity.
Qed.

Lemma tips_printer_missing_key_example :
  print_search_tips [] (initial_world example_clock) =
  (Raise (KeyError "year"),
   mk_world example_clock 0
     [str_repeat "=" 60 ++ nl; "TIME-AWARE SEARCH TIPS" ++ nl;
      str_repeat "=" 60 ++ nl]) /\
  print_search_tips [("year", "2026"); ("date_iso", "2026-02-08")]
    (initial_world example_clock) =
  (Raise (KeyError "quarter"),
   mk_world example_clock 0
     [str_repeat "=" 60 ++ nl; "TIME-AWARE SEARCH TIPS" ++ nl;
      str_repeat "=" 60 ++ nl; (nl ++ "Current Year: 2026") ++ nl]).
Proof.
  split.
  - apply (tips_printer_missing_key [] (initial_world example_clock)).
    reflexivity.
  - apply (tips_printer_missing_key [("year", "2026"); ("date_iso", "2026-02-08")]
             (initial_world example_clock)); reflexivity.
Defined.

(** X3.  Whatever the arguments, [main] reads the clock exactly once,
    also on the help and unknown-argument paths that print no time, and
    it only appends to standard output, at least one text. *)
Theorem main_reads_clock_once (ul : string -> string) (argv : list string)
    (w : World) :
  clock (snd (main ul argv w)) = clock w /\
  reads (snd (main ul argv w)) = S (reads w) /\
  exists out, out <> [] /\ stdout (snd (main ul argv w)) = (stdout w ++ out)%list.
Proof.
  unfold main, bind. rewrite get_time_info_run.
  destruct (1 <? Z.of_nat (List.length argv)).
  - cbv zeta.
    repeat match goal with
           | |- context [if str_in ?a ?l then _ else _] =>
               destruct (str_in a l)
           end;
      try rewrite tips_run;
      lazy beta iota zeta delta
        [bind getitem print sys_exit dict_get time_info_of
         String.eqb Ascii.eqb Bool.eqb clock reads stdout fst snd];
      rewrite <- ?app_assoc;
      (split; [reflexivity | split; [reflexivity|]]);
      eexists; (split; [|reflexivity]); discriminate.
  - rewrite tips_run. cbn [snd clock reads stdout].
    split; [reflexivity | split; [reflexivity|]].
    eexists; (split; [|reflexivity]). discriminate.
Qed.

Lemma is_ascii_app (a b : string) :
  is_ascii (a ++ b) = is_ascii a && is_ascii b.
Proof.
  unfold is_ascii. induction a as [|c a IH]; [reflexivity|].
  cbn [append list_ascii_of_string forallb]. rewrite IH. apply andb_assoc.
Qed.

Lemma ascii_lower_app (a b : string) :
  ascii_lower (a ++ b) = ascii_lower a ++ ascii_lower b.
Proof.
  induction a as [|c a IH]; [reflexivity|].
  cbn [append ascii_lower]. now rewrite IH.
Qed.

Lemma flag_extended_unrecognized (f : string) (c : ascii) (s : string) :
  In f all_flags -> recognized (f ++ String c s) = false.
Proof.
  intro H. cbn in H.
  repeat (destruct H as [<-|H]; [reflexivity|]). destruct H.
Qed.

Lemma flag_prefix_unrecognized (f a b : string) :
  In f all_flags -> f = a ++ b -> b <> EmptyString -> recognized a = false.
Proof.
  intros H E Hb. cbn in H.
  repeat (destruct H as [<-|H];
          [ repeat (destruct a as [|? a];
                    [ cbn [append] in E; first [reflexivity | congruence]
                    | cbn [append] in E; first [discriminate | injection E as <- E] ])
          | ]).
  destruct H.
Qed.

(** X4.  Flags are matched whole: an ASCII argument that spells a flag,
    in any letter case, followed by further ASCII characters (as in
    [-yq] or [--year=2026]) is reported as unknown, in lower case, and
    the run exits with status 1. *)
Theorem flag_with_suffix_rejected (ul : string -> string)
    (clk : nat -> datetime) (p t s : string) (rest : list string) :
  is_ascii t = true -> In (ascii_lower t) all_flags ->
  is_ascii s = true -> s <> EmptyString ->
  run_script ul clk (p :: (t ++ s) :: rest) =
  mk_run (printed_lines ["Unknown argument: " ++ ascii_lower t ++ ascii_lower s;
                         "Use --help for usage information"]) 1.
Proof.
  intros At Hf As Hs.
  assert (L : lower ul (t ++ s) = ascii_lower t ++ ascii_lower s).
  { unfold lower. now rewrite is_ascii_app, At, As, ascii_lower_app. }
  rewrite run_unknown; rewrite L; [reflexivity|].
  destruct s as [|c s]; [congruence|]. cbn [ascii_lower].
  now apply flag_extended_unrecognized.
Qed.

Lemma flag_with_suffix_rejected_example :
  is_ascii "--Year" = true /\ In (ascii_lower "--Year") all_flags /\
  is_ascii "=2026" = true /\ "=2026" <> EmptyString /\
  run_script id_lower example_clock [script_name; "--Year=2026"] =
  mk_run (printed_lines ["Unknown argument: --year=2026";
                         "Use --help for usage information"]) 1.
Proof.
  split; [reflexivity|]. split; [cbn; tauto|].
  split; [reflexivity|]. split; [discriminate|].
  apply (flag_with_suffix_rejected id_lower example_clock script_name
           "--Year" "=2026" []);
    [reflexivity | cbn; tauto | reflexivity | discriminate].
Defined.

(** X5.  Flags are not abbreviated: an ASCII argument whose lower-case
    form is a proper prefix of a flag (as in [--yea], [--] or the empty
    argument) is reported as unknown and the run exits with status 1. *)
Theorem flag_prefix_rejected (ul : string -> string)
    (clk : nat -> datetime) (p t f b : string) (rest : list string) :
  is_ascii t = true -> In f all_flags ->
  f = ascii_lower t ++ b -> b <> EmptyString ->
  run_script ul clk (p :: t :: rest) =
  mk_run (printed_lines ["Unknown argument: " ++ ascii_lower t;
                         "Use --help for usage information"]) 1.
Proof.
  intros At Hf E Hb.
  assert (L : lower ul t = ascii_lower t) by (unfold lower; now rewrite At).
  rewrite run_unknown; rewrite L; [reflexivity|].
  exact (flag_prefix_unrecognized f (ascii_lower t) b Hf E Hb).
Qed.

Lemma flag_prefix_rejected_example :
  is_ascii "--YEA" = true /\ In "--year" all_flags /\
  "--year" = ascii_lower "--YEA" ++ "r" /\ "r" <> EmptyString /\
  run_script id_lower example_clock [script_name; "--YEA"] =
  mk_run (printed_lines ["Unknown argument: --yea";
                         "Use --help for usage information"]) 1.
Proof.
  split; [reflexivity|]. split; [cbn; tauto|].
  split; [reflexivity|]. split; [discriminate|].
  apply (flag_prefix_rejected id_lower example_clock script_name
           "--YEA" "--year" "r" []);
    [reflexivity | cbn; tauto | reflexivity | discriminate].
Defined.

(** *** Decimal texts *)

Lemma digit_cases (r : Z) :
  0 <= r <= 9 ->
  r = 0 \/ r = 1 \/ r = 2 \/ r = 3 \/ r = 4 \/
  r = 5 \/ r = 6 \/ r = 7 \/ r = 8 \/ r = 9.
Proof. lia. Qed.

Ltac each_digit H :=
  apply digit_cases in H;
  destruct H as [->|[->|[->|[->|[->|[->|[->|[->|[->| ->]]]]]]]]].

Ltac as_successors :=
  repeat match goal with
    | |- context [Decimal.D9 ?l] =>
        change (Decimal.D9 l) with (Decimal.Little.succ (Decimal.D8 l))
    | |- context [Decimal.D8 ?l] =>
        change (Decimal.D8 l) with (Decimal.Little.succ (Decimal.D7 l))
    | |- context [Decimal.D7 ?l] =>
        change (Decimal.D7 l) with (Decimal.Little.succ (Decimal.D6 l))
    | |- context [Decimal.D6 ?l] =>
        change (Decimal.D6 l) with (Decimal.Little.succ (Decimal.D5 l))
    | |- context [Decimal.D5 ?l] =>
        change (Decimal.D5 l) with (Decimal.Little.succ (Decimal.D4 l))
    | |- context [Decimal.D4 ?l] =>
        change (Decimal.D4 l) with (Decimal.Little.succ (Decimal.D3 l))
    | |- context [Decimal.D3 ?l] =>
        change (Decimal.D3 l) with (Decimal.Little.succ (Decimal.D2 l))
    | |- context [Decimal.D2 ?l] =>
        change (Decimal.D2 l) with (Decimal.Little.succ (Decimal.D1 l))
    | |- context [Decimal.D1 ?l] =>
        change (Decimal.D1 l) with (Decimal.Little.succ (Decimal.D0 l))
    end.

Lemma to_little_uint_digit (p : positive) (r : Z) :
  0 <= r <= 9 ->
  Pos.to_little_uint (Z.to_pos (10 * Z.pos p + r))
  = digit_uint r (Pos.to_little_uint p).
Proof.
  intro H.
  change (Pos.to_little_uint ?x) with (Unsigned.to_lu (N.pos x)).
  each_digit H; cbn [digit_uint]; as_successors;
    rewrite <- (Unsigned.to_ldec_tenfold p), <- ?Unsigned.to_lu_succ;
    f_equal; lia.
Qed.

Lemma string_of_revapp (l acc : Decimal.uint) :
  NilEmpty.string_of_uint (Decimal.revapp l acc)
  = NilEmpty.string_of_uint (Decimal.revapp l Decimal.Nil)
    ++ NilEmpty.string_of_uint acc.
Proof.
  revert acc. induction l; intro acc; cbn [Decimal.revapp];
    [reflexivity | rewrite IHl, (IHl (_ Decimal.Nil)), str_app_assoc; reflexivity ..].
Qed.

Lemma nilzero_nonnil (d : Decimal.uint) :
  d <> Decimal.Nil -> NilZero.string_of_uint d = NilEmpty.string_of_uint d.
Proof. destruct d; [congruence | reflexivity ..]. Qed.

Lemma str_of_pos (p : positive) :
  str_of_int (Z.pos p)
  = NilEmpty.string_of_uint (Decimal.rev (Pos.to_little_uint p)).
Proof.
  unfold str_of_int. cbn [Z.to_int NilZero.string_of_int].
  apply nilzero_nonnil, Unsigned.to_uint_nonnil.
Qed.

(** Appending a digit to a positive number appends its character. *)
Lemma str_of_int_digit (q r : Z) :
  1 <= q -> 0 <= r <= 9 ->
  str_of_int (10 * q + r) = str_of_int q ++ String (digit_char r) EmptyString.
Proof.
  intros Hq Hr. destruct q as [|p|p]; try lia.
  replace (10 * Z.pos p + r) with (Z.pos (Z.to_pos (10 * Z.pos p + r))) by lia.
  rewrite !str_of_pos, to_little_uint_digit by exact Hr.
  unfold Decimal.rev.
  each_digit Hr; cbn [digit_uint digit_char Decimal.revapp];
    rewrite string_of_revapp; reflexivity.
Qed.

Lemma two_digit_text (c d : Z) :
  0 <= c <= 9 -> 0 <= d <= 9 ->
  zero_pad 2 (str_of_int (10 * c + d))
  = String (digit_char c) (String (digit_char d) EmptyString).
Proof. intros Hc Hd. each_digit Hc; each_digit Hd; reflexivity. Qed.

Lemma two_digits (n : Z) :
  0 <= n <= 99 -> String.length (zero_pad 2 (str_of_int n)) = 2%nat.
Proof.
  intro H.
  pose proof (Z.div_mod n 10 ltac:(lia)) as E.
  pose proof (Z.mod_pos_bound n 10 ltac:(lia)) as B.
  assert (0 <= n / 10) by (apply Z.div_pos; lia).
  assert (n / 10 < 10) by (apply Z.div_lt_upper_bound; lia).
  rewrite E, two_digit_text by lia. reflexivity.
Qed.

Lemma one_digit_length (a : Z) :
  1 <= a <= 9 -> String.length (str_of_int a) = 1%nat.
Proof.
  intro H. assert (H' : 0 <= a <= 9) by lia.
  each_digit H'; reflexivity.
Qed.

Lemma four_digit_year (y : Z) :
  1000 <= y <= 9999 ->
  zero_pad 4 (str_of_int y) = str_of_int y /\
  String.length (str_of_int y) = 4%nat /\
  str_of_int y = str_of_int (y / 100) ++ zero_pad 2 (str_of_int (y mod 100)).
Proof.
  intro H.
  pose proof (Z.div_mod y 10 ltac:(lia)) as E1.
  pose proof (Z.mod_pos_bound y 10 ltac:(lia)) as B1.
  set (q1 := y / 10) in *. set (r1 := y mod 10) in *.
  pose proof (Z.div_mod q1 10 ltac:(lia)) as E2.
  pose proof (Z.mod_pos_bound q1 10 ltac:(lia)) as B2.
  set (q2 := q1 / 10) in *. set (r2 := q1 mod 10) in *.
  pose proof (Z.div_mod q2 10 ltac:(lia)) as E3.
  pose proof (Z.mod_pos_bound q2 10 ltac:(lia)) as B3.
  set (q3 := q2 / 10) in *. set (r3 := q2 mod 10) in *.
  assert (Hq : y / 100 = q2)
    by (symmetry; apply (Z.div_unique y 100 q2 (10 * r2 + r1)); lia).
  assert (Hr : y mod 100 = 10 * r2 + r1)
    by (symmetry; apply (Z.mod_unique y 100 q2 (10 * r2 + r1)); lia).
  assert (S1 : str_of_int y = str_of_int q1 ++ String (digit_char r1) EmptyString)
    by (rewrite E1 at 1; apply str_of_int_digit; lia).
  assert (S2 : str_of_int q1 = str_of_int q2 ++ String (digit_char r2) EmptyString)
    by (rewrite E2 at 1; apply str_of_int_digit; lia).
  assert (S3 : str_of_int q2 = str_of_int q3 ++ String (digit_char r3) EmptyString)
    by (rewrite E3 at 1; apply str_of_int_digit; lia).
  assert (L : String.length (str_of_int y) = 4%nat).
  { rewrite S1, S2, S3, !str_length_app, one_digit_length by lia. reflexivity. }
  split; [|split; [exact L|]].
  - unfold zero_pad. rewrite L. reflexivity.
  - rewrite Hq, Hr, two_digit_text by lia.
    rewrite S1, S2, str_app_assoc. reflexivity.
Qed.

Lemma valid_datetime_ranges (t : datetime) :
  valid_datetime t = true ->
  1 <= year t <= 9999 /\ 1 <= month t <= 12 /\ 1 <= day t <= 31 /\
  0 <= hour t <= 23 /\ 0 <= minute t <= 59 /\ 0 <= second t <= 59.
Proof.
  unfold valid_datetime. rewrite !andb_true_iff, !Z.leb_le.
  intros (((((((((((? & ?) & ?) & ?) & ?) & Hd) & ?) & ?) & ?) & ?) & ?) & ?).
  assert (days_in_month (year t) (month t) <= 31).
  { unfold days_in_month.
    repeat match goal with |- context [if ?b then _ else _] => destruct b end; lia. }
  lia.
Qed.

(** X6.  For a valid instant with a four-digit year the fields have
    fixed widths: [year] and [search_suffix] 4 characters, [year_short]
    2, [date_iso] 10 and [full_datetime] 19. *)
Theorem time_fields_fixed_width (now : datetime) :
  valid_datetime now = true -> 1000 <= year now ->
  let d := time_info_of now in
  exists y ys di ss fd,
    dict_get d "year" = Some y /\ String.length y = 4%nat /\
    dict_get d "year_short" = Some ys /\ String.length ys = 2%nat /\
    dict_get d "date_iso" = Some di /\ String.length di = 10%nat /\
    dict_get d "search_suffix" = Some ss /\ String.length ss = 4%nat /\
    dict_get d "full_datetime" = Some fd /\ String.length fd = 19%nat.
Proof.
  intros Hv Hy. cbv zeta.
  destruct (valid_datetime_ranges now Hv) as (Y & M & D & Hh & Hm & Hs).
  destruct (four_digit_year (year now) ltac:(lia)) as (P4 & L4 & _).
  assert (L2 : String.length (zero_pad 2 (str_of_int (year now mod 100))) = 2%nat)
    by (apply two_digits; pose proof (Z.mod_pos_bound (year now) 100); lia).
  pose proof (two_digits (month now) ltac:(lia)) as Lm.
  pose proof (two_digits (day now) ltac:(lia)) as Ld.
  pose proof (two_digits (hour now) ltac:(lia)) as LH.
  pose proof (two_digits (minute now) ltac:(lia)) as LM.
  pose proof (two_digits (second now) ltac:(lia)) as LS.
  exists (strftime now "%Y"), (strftime now "%y"), (strftime now "%Y-%m-%d"),
    (strftime now "%Y"), (strftime now "%Y-%m-%d %H:%M:%S").
  unfold strftime.
  cbn [strftime_from directive Ascii.eqb Bool.eqb].
  rewrite ?str_app_nil_r, ?P4.
  repeat (rewrite ?str_length_app; cbn [String.length]).
  rewrite ?L4, ?L2, ?Lm, ?Ld, ?LH, ?LM, ?LS.
  unfold time_info_of, strftime.
  cbn [dict_get String.eqb Ascii.eqb Bool.eqb strftime_from directive].
  rewrite ?str_app_nil_r, ?P4.
  repeat split; reflexivity.
Qed.

(** X7.  For a valid instant with a four-digit year every field shows
    the same year text: [quarter] and [month_year] end with it,
    [date_iso] starts with it, [year_short] is its last two characters,
    and [full_datetime] starts with [date_iso]. *)
Theorem time_fields_share_year (now : datetime) :
  valid_datetime now = true -> 1000 <= year now ->
  let d := time_info_of now in
  let y := str_of_int (year now) in
  let ys := zero_pad 2 (str_of_int (year now mod 100)) in
  let di := y ++ "-" ++ zero_pad 2 (str_of_int (month now))
              ++ "-" ++ zero_pad 2 (str_of_int (day now)) in
  dict_get d "year" = Some y /\
  dict_get d "search_suffix" = Some y /\
  dict_get d "year_short" = Some ys /\
  y = str_of_int (year now / 100) ++ ys /\
  dict_get d "quarter"
    = Some ("Q" ++ str_of_int ((month now - 1) / 3 + 1) ++ " " ++ y) /\
  dict_get d "month_year" = Some (month_name (month now) ++ " " ++ y) /\
  dict_get d "date_iso" = Some di /\
  dict_get d "full_datetime"
    = Some (di ++ " " ++ zero_pad 2 (str_of_int (hour now))
               ++ ":" ++ zero_pad 2 (str_of_int (minute now))
               ++ ":" ++ zero_pad 2 (str_of_int (second now))).
Proof.
  intros Hv Hy. cbv zeta.
  destruct (valid_datetime_ranges now Hv) as (Y & _).
  destruct (four_digit_year (year now) ltac:(lia)) as (P4 & _ & C).
  unfold time_info_of, strftime.
  cbn [dict_get String.eqb Ascii.eqb Bool.eqb strftime_from directive].
  rewrite ?str_app_nil_r, ?P4, ?str_app_assoc.
  repeat (split; [reflexivity|]).
  split; [exact C|].
  repeat (split; [reflexivity|]). reflexivity.
Qed.

Lemma time_fields_share_year_example :
  valid_datetime example_instant = true /\ 1000 <= year example_instant /\
  dict_get (time_info_of example_instant) "year" = Some "2026" /\
  dict_get (time_info_of example_instant) "search_suffix" = Some "2026" /\
  dict_get (time_info_of example_instant) "year_short" = Some "26" /\
  "2026" = "20" ++ "26" /\
  dict_get (time_info_of example_instant) "quarter" = Some "Q1 2026" /\
  dict_get (time_info_of example_instant) "month_year" = Some "February 2026" /\
  dict_get (time_info_of example_instant) "date_iso" = Some "2026-02-08" /\
  dict_get (time_info_of example_instant) "full_datetime"
    = Some "2026-02-08 14:30:00".
Proof.
  split; [reflexivity|]. split; [discriminate|].
  apply (time_fields_share_year example_instant); [reflexivity | discriminate].
Defined.

(** X8.  The quarter numeral names the three-month period that holds the
    month: with [n] the numeral of the [quarter] field of a valid
    instant, [3 * (n - 1) < month <= 3 * n]. *)
Theorem quarter_covers_month (now : datetime) :
  valid_datetime now = true ->
  exists n,
    dict_get (time_info_of now) "quarter"
      = Some ("Q" ++ str_of_int n ++ " " ++ str_of_int (year now)) /\
    1 <= n <= 4 /\ 3 * (n - 1) < month now <= 3 * n.
Proof.
  intro Hv. destruct (valid_datetime_ranges now Hv) as (_ & M & _).
  exists ((month now - 1) / 3 + 1). split; [reflexivity|].
  pose proof (Z.div_mod (month now - 1) 3 ltac:(lia)) as E.
  pose proof (Z.mod_pos_bound (month now - 1) 3 ltac:(lia)) as B.
  lia.
Qed.

Lemma quarter_covers_month_example :
  valid_datetime (mk_datetime 2025 12 31 23 59 59) = true /\
  exists n,
    dict_get (time_info_of (mk_datetime 2025 12 31 23 59 59)) "quarter"
      = Some ("Q" ++ str_of_int n ++ " " ++ "2025") /\
    1 <= n <= 4 /\ 3 * (n - 1) < 12 <= 3 * n.
Proof.
  split; [reflexivity|].
  apply (quarter_covers_month (mk_datetime 2025 12 31 23 59 59)). reflexivity.
Defined.

Lemma plain_no_newline (s : string) :
  plain s = true -> contains nl s = false.
Proof.
  induction s as [|c s IH]; [reflexivity|].
  cbn [plain]. rewrite andb_true_iff. intros [Hc Hs].
  apply plain_char_bounds in Hc. destruct Hc as (Hr & _ & _).
  cbn [contains nl String.prefix].
  destruct (ascii_dec "010" c) as [<-|_]; [cbn in Hr; lia|].
  cbn [orb]. exact (IH Hs).
Qed.

(** X9.  Each of the flags [--year], [--search], [--quarter] and
    [--date] prints one line only: printable ASCII text without quote,
    backslash or line break, then a newline; the exit status is 0. *)
Theorem scalar_flag_prints_one_line (ul : string -> string)
    (clk : nat -> datetime) (g : list string) (p t : string)
    (rest : list string) :
  In g [ ["--year"; "-y"]; ["--search"; "-s"];
         ["--quarter"; "-q"]; ["--date"; "-d"] ] ->
  str_in (lower ul t) g = true ->
  exists line,
    run_script ul clk (p :: t :: rest) = mk_run (line ++ nl) 0 /\
    plain line = true /\ contains nl line = false.
Proof.
  intros Hg H. cbn [In] in Hg.
  destruct Hg as [<-|[<-|[<-|[<-|[]]]]];
    eexists; (split; [first [now apply run_year | now apply run_search
                            | now apply run_quarter | now apply run_date]|]);
    assert (forall s, plain s = true -> plain s = true /\ contains nl s = false)
      as K by (intros s Hs; split; [exact Hs | now apply plain_no_newline]);
    apply K; clear K;
    rewrite ?plain_strftime by reflexivity; try reflexivity;
    rewrite !plain_app, !plain_str_of_int; reflexivity.
Qed.

Lemma scalar_flag_prints_one_line_example :
  In ["--date"; "-d"] [ ["--year"; "-y"]; ["--search"; "-s"];
                        ["--quarter"; "-q"]; ["--date"; "-d"] ] /\
  str_in (lower id_lower "-D") ["--date"; "-d"] = true /\
  exists line,
    run_script id_lower example_clock [script_name; "-D"] = mk_run (line ++ nl) 0 /\
    plain line = true /\ contains nl line = false.
Proof.
  split; [cbn; tauto|]. split; [reflexivity|].
  apply (scalar_flag_prints_one_line id_lower example_clock ["--date"; "-d"]
           script_name "-D" []); [cbn; tauto | reflexivity].
Defined.

(** X10.  The time never reaches the exit status, the usage text or the
    unknown-argument report: two runs with the same arguments and
    different clocks exit with the same status, and print the same text
    when the first argument is a help flag or no flag at all. *)
Theorem status_and_help_ignore_clock (ul : string -> string)
    (clk1 clk2 : nat -> datetime) (argv : list string) :
  exit_status (run_script ul clk1 argv) = exit_status (run_script ul clk2 argv) /\
  ((1 < List.length argv)%nat ->
   str_in (lower ul (nth 1 argv EmptyString)) ["--help"; "-h"] = true \/
   recognized (lower ul (nth 1 argv EmptyString)) = false ->
   run_script ul clk1 argv = run_script ul clk2 argv).
Proof.
  destruct (Nat.le_gt_cases (List.length argv) 1) as [Hle|Hgt].
  - rewrite !run_no_argument by exact Hle. split; [reflexivity | lia].
  - destruct (argv_shape argv Hgt) as (p & rest & E).
    set (t := nth 1 argv EmptyString) in *. clearbody t. subst argv.
    split.
    + destruct (recognized (lower ul t)) eqn:R.
      * now rewrite !run_recognized_status.
      * now rewrite !run_unknown.
    + intros _ [H|H].
      * now rewrite !run_help.
      * now rewrite !run_unknown.
Qed.

Lemma status_and_help_ignore_clock_example :
  let other := fun _ : nat => mk_datetime 1999 12 31 23 59 59 in
  exit_status (run_script id_lower example_clock [script_name; "--help"])
    = exit_status (run_script id_lower other [script_name; "--help"]) /\
  run_script id_lower example_clock [script_name; "--help"]
    = run_script id_lower other [script_name; "--help"].
Proof.
  cbv zeta.
  pose proof (status_and_help_ignore_clock id_lower example_clock
                (fun _ : nat => mk_datetime 1999 12 31 23 59 59)
                [script_name; "--help"]) as [H1 H2].
  split; [exact H1|]. apply H2; [cbn; lia | left; reflexivity].
Defined.

Lemma time_fields_fixed_width_example :
  valid_datetime example_instant = true /\ 1000 <= year example_instant /\
  exists y ys di ss fd,
    dict_get (time_info_of example_instant) "year" = Some y /\
    String.length y = 4%nat /\
    dict_get (time_info_of example_instant) "year_short" = Some ys /\
    String.length ys = 2%nat /\
    dict_get (time_info_of example_instant) "date_iso" = Some di /\
    String.length di = 10%nat /\
    dict_get (time_info_of example_instant) "search_suffix" = Some ss /\
    String.length ss = 4%nat /\
    dict_get (time_info_of example_instant) "full_datetime" = Some fd /\
    String.length fd = 19%nat.
Proof.
  split; [reflexivity|]. split; [discriminate|].
  apply (time_fields_fixed_width example_instant); [reflexivity | discriminate].
Defined.

(** X11.  No [KeyError] escapes from [main]: it either returns or raises
    [SystemExit(1)], the latter exactly when there is a first argument
    whose case-folded form is no flag. *)
Theorem main_returns_or_exits (ul : string -> string) (argv : list string)
    (w : World) :
  (fst (main ul argv w) = Return tt \/
   fst (main ul argv w) = Raise (SystemExit 1)) /\
  (fst (main ul argv w) = Raise (SystemExit 1) <->
   (1 < List.length argv)%nat /\
   recognized (lower ul (nth 1 argv EmptyString)) = false).
Proof.
  unfold main, bind. rewrite get_time_info_run.
  destruct (1 <? Z.of_nat (List.length argv)) eqn:L.
  - apply Z.ltb_lt in L. cbv zeta.
    destruct (recognized (lower ul (nth 1 argv EmptyString))) eqn:R.
    + apply recognized_group in R. destruct R as (g & Hg & Hin).
      cbn [flag_groups In] in Hg.
      destruct Hg as [<-|[<-|[<-|[<-|[<-|[<-|[<-|[]]]]]]]];
        apply str_in_pair in Hin; destruct Hin as [-> | ->];
        lazy beta iota zeta delta
          [str_in existsb String.eqb Ascii.eqb Bool.eqb orb];
        try rewrite tips_run;
        lazy beta iota zeta delta
          [bind getitem print sys_exit dict_get time_info_of
           String.eqb Ascii.eqb Bool.eqb clock reads stdout fst snd];
        (split; [left; reflexivity
                | split; [discriminate | intros [_ ?]; discriminate]]).
    + apply unrecognized_tests in R.
      destruct R as (H1 & H2 & H3 & H4 & H5 & H6 & H7).
      rewrite H1, H2, H3, H4, H5, H6, H7.
      lazy beta iota zeta delta
        [bind print sys_exit clock reads stdout fst snd].
      split; [right; reflexivity | split; [intros _; split; [lia | reflexivity] | reflexivity]].
  - apply Z.ltb_ge in L. rewrite tips_run. cbn [fst].
    split; [left; reflexivity | split; [discriminate | lia]].
Qed.

(** X12.  The name the script is started under plays no part: two
    argument lists that differ only in their first element give the same
    run, and an empty argument list behaves as one without arguments. *)
Theorem script_name_ignored (ul : string -> string) (clk : nat -> datetime)
    (p1 p2 : string) (args : list string) :
  run_script ul clk (p1 :: args) = run_script ul clk (p2 :: args) /\
  run_script ul clk [] = run_script ul clk [p1].
Proof.
  split.
  - destruct args as [|a rest].
    + now rewrite !run_no_argument by (cbn; lia).
    + unfold run_script, main, bind. rewrite !get_time_info_run.
      rewrite !argc_gt1. cbn [nth]. reflexivity.
  - now rewrite !run_no_argument by (cbn; lia).
Qed.
